(** * The auto-tagging dispatcher of [lambda_function.py]

    A shallow embedding of the Lambda function that tags AWS resources at
    creation time, and the properties of its dispatch path.

    The event is the Python object the Lambda runtime decodes from JSON.
    Calls to the AWS SDK are the nodes of a program tree, so that a program
    can be read without fixing what the services answer; an interpreter runs
    a tree against any implementation of the services and records the calls
    it makes.

    The dispatch path leaves out the calls to [logger], which change neither
    what a function returns nor what it asks of the services, and the cache
    [CLIENTS] of [get_client], whose clients differ by service and region
    only. [get_client], [parse_arn] and [lambda_handler] are embedded on
    their own, after the dispatch path. *)

From Stdlib Require Import String Ascii ZArith List.
From stdpp Require Import gmap strings list fin_maps.

Set Warnings "-register-all".
Open Scope string_scope.
Open Scope list_scope.

(** ** Python values *)

(** The values of a JSON-decoded event. Numbers are the integers; a [dict]
    has string keys. *)
Inductive json : Type :=
| JNull
| JBool (b : bool)
| JInt (z : Z)
| JStr (s : string)
| JList (l : list json)
| JObj (m : gmap string json).

(** A [Dict[str, Any]]. *)
Abbreviation dict := (gmap string json).

(** The exceptions that reach the dispatcher. [ClientError] is botocore's,
    with [e.response['Error']['Code']] and the text of [str(e)]; the next two
    are raised by the interpreter; [Exception] is any other exception of
    the SDK. *)
Inductive exn : Type :=
| ClientError (code text : string)
| AttributeError (text : string)
| TypeError (text : string)
| Exception (text : string).

(** [str(e)] *)
Definition str (e : exn) : string :=
  match e with
  | ClientError _ text => text
  | AttributeError text => text
  | TypeError text => text
  | Exception text => text
  end.

Definition is_ClientError (e : exn) : bool :=
  match e with ClientError _ _ => true | _ => false end.

(** [e.response['Error']['Code']] of a [ClientError]. *)
Definition error_code (e : exn) : string :=
  match e with ClientError code _ => code | _ => "" end.

(** [type(v).__name__] *)
Definition type_name (v : json) : string :=
  match v with
  | JNull => "NoneType"
  | JBool _ => "bool"
  | JInt _ => "int"
  | JStr _ => "str"
  | JList _ => "list"
  | JObj _ => "dict"
  end.

Definition no_attribute (v : json) (attr : string) : exn :=
  AttributeError ("'" +:+ type_name v +:+ "' object has no attribute '" +:+ attr +:+ "'").

(** [bool(v)] *)
Definition truthy (v : json) : bool :=
  match v with
  | JNull => false
  | JBool b => b
  | JInt z => negb (z =? 0)%Z
  | JStr s => negb (String.eqb s "")
  | JList l => match l with [] => false | _ => true end
  | JObj m => match map_to_list m with [] => false | _ => true end
  end.

(** [v == s] for a string literal [s]. *)
Definition eq_str (v : json) (s : string) : bool :=
  match v with JStr s' => String.eqb s' s | _ => false end.

(** An f-string with one replacement field, [f"<prefix>{value}"], kept as
    its literal part and the value formatted into it. *)
Record fstring : Type := FStr { literal : string; field : json }.

(** The text of an f-string whose field is a string. *)
Definition render (f : fstring) : option string :=
  match field f with JStr s => Some (literal f +:+ s) | _ => None end.

(** ** Strings *)

(** [s.split(sep)] for a separator of one character. *)
Fixpoint split (sep : ascii) (s : string) : list string :=
  match s with
  | EmptyString => [EmptyString]
  | String c s' =>
      if Ascii.eqb c sep then EmptyString :: split sep s'
      else match split sep s' with
           | [] => [String c EmptyString]
           | w :: ws => String c w :: ws
           end
  end.

(** [c in s] for a character [c]. *)
Fixpoint contains (c : ascii) (s : string) : bool :=
  match s with
  | EmptyString => false
  | String c' s' => Ascii.eqb c' c || contains c s'
  end.

(** [s.startswith(p)] *)
Definition startswith (s p : string) : bool := String.prefix p s.

(** ** The AWS SDK *)

(** The SDK calls the tagging functions make. Each carries the region
    [get_client] was given for its client ([get_client] makes no request of
    its own; a client that cannot be made is an exception of the first call
    on it) and the keyword arguments of the call. *)
Inductive api_call : Type :=
| ec2_create_tags (region : json) (Resources : list json) (Tags : list (string * json))
| s3_get_bucket_tagging (region : json) (Bucket : json)
| s3_put_bucket_tagging (region : json) (Bucket : json) (TagSet : list (string * json))
| rds_add_tags_to_resource (region : json) (ResourceName : json) (Tags : list (string * json))
| lambda_get_function (region : json) (FunctionName : json)
| lambda_tag_resource (region : json) (Resource : json) (Tags : dict)
| dynamodb_describe_table (region : json) (TableName : json)
| dynamodb_tag_resource (region : json) (ResourceArn : json) (Tags : list (string * json)).

(** What a call answers: the members of the response the code reads, typed
    as in the service model of the SDK. *)
Definition response (c : api_call) : Type :=
  match c with
  | s3_get_bucket_tagging _ _ => option (list (string * string))
      (* response.get('TagSet'): Key/Value pairs *)
  | lambda_get_function _ _ => string
      (* response['Configuration']['FunctionArn'] *)
  | dynamodb_describe_table _ _ => string
      (* response['Table']['TableArn'] *)
  | _ => unit
  end.

(** ** Programs *)

(** A computation that returns, raises, or calls the SDK and goes on with
    what the call answered or raised. *)
Inductive prog (A : Type) : Type :=
| Ret (a : A)
| Raise (e : exn)
| Call (c : api_call) (k : exn + response c -> prog A).
Arguments Ret {A} a.
Arguments Raise {A} e.
Arguments Call {A} c k.

Fixpoint bind {A B : Type} (p : prog A) (f : A -> prog B) : prog B :=
  match p with
  | Ret a => f a
  | Raise e => Raise e
  | Call c k => Call c (fun r => bind (k r) f)
  end.

#[global] Instance prog_ret : MRet prog := @Ret.
#[global] Instance prog_bind : MBind prog := fun A B f p => bind p f.

(** One SDK call: its answer, or the exception it raised. *)
Definition call (c : api_call) : prog (response c) :=
  Call c (fun r => match r with inl e => Raise e | inr x => Ret x end).

(** [try: body / except ...: handler]; [except e] is [None] when no clause
    matches [e]. *)
Fixpoint try_except {A : Type} (body : prog A) (except : exn -> option (prog A)) : prog A :=
  match body with
  | Ret a => Ret a
  | Raise e => match except e with Some h => h | None => Raise e end
  | Call c k => Call c (fun r => try_except (k r) except)
  end.

(** [except ClientError as e: handler] *)
Definition except_ClientError {A : Type} (handler : exn -> prog A) (e : exn) : option (prog A) :=
  if is_ClientError e then Some (handler e) else None.

(** [except Exception as e: handler] *)
Definition except_Exception {A : Type} (handler : exn -> prog A) (e : exn) : option (prog A) :=
  Some (handler e).

(** ** Operations on Python values that can raise *)

(** [v.get(k, default)] *)
Definition get (v : json) (k : string) (fallback : json) : prog json :=
  match v with
  | JObj m => Ret (default fallback (m !! k))
  | _ => Raise (no_attribute v "get")
  end.

(** ['<c>' in v] *)
Definition py_in (c : ascii) (v : json) : prog bool :=
  match v with
  | JStr s => Ret (contains c s)
  | JList l => Ret (existsb (fun x => eq_str x (String c EmptyString)) l)
  | JObj m => Ret (match m !! String c EmptyString with Some _ => true | None => false end)
  | _ => Raise (TypeError ("argument of type '" +:+ type_name v +:+ "' is not iterable"))
  end.

(** [v.split('<sep>')] *)
Definition py_split (v : json) (sep : ascii) : prog (list string) :=
  match v with
  | JStr s => Ret (split sep s)
  | _ => Raise (no_attribute v "split")
  end.

(** [v.startswith(p)] *)
Definition py_startswith (v : json) (p : string) : prog bool :=
  match v with
  | JStr s => Ret (startswith s p)
  | _ => Raise (no_attribute v "startswith")
  end.

(** The items [for x in v] goes through. A dict gives its keys. *)
Definition iter (v : json) : prog (list json) :=
  match v with
  | JList l => Ret l
  | JStr s => Ret (map (fun c => JStr (String c EmptyString)) (list_ascii_of_string s))
  | JObj m => Ret (map (fun kv => JStr kv.1) (map_to_list m))
  | _ => Raise (TypeError ("'" +:+ type_name v +:+ "' object is not iterable"))
  end.

(** [v in l] for a list of strings [l]. *)
Definition in_strings (v : json) (l : list string) : bool :=
  existsb (eq_str v) l.

(** [d.update(new)] *)
Definition update (d new : dict) : dict := new ∪ d.

(** [[{'Key': k, 'Value': v} for k, v in tags.items()]]. The items come in
    the order of the map, not in the insertion order of the Python dict. *)
Definition tag_list (tags : dict) : list (string * json) := map_to_list tags.

(** [{tag['Key']: tag['Value'] for tag in tag_set}]: a later pair replaces an
    earlier one of the same key. *)
Definition dict_of_tag_set (tag_set : list (string * string)) : dict :=
  fold_left (fun d tag => <[tag.1 := JStr tag.2]> d) tag_set ∅.

(** ** Configuration *)

(** The [CONFIG] dictionary. [max_retry_attempts] is read by no function of
    the dispatch path and is left out. *)
Record config : Type := {
  excluded_services : list string;
  default_tags : dict
}.

(** [CONFIG] as the module builds it from [os.environ] when it is loaded. *)
Definition CONFIG (environ : gmap string string) : config := {|
  excluded_services :=
    split "," (default "cloudtrail,logs" (environ !! "EXCLUDED_SERVICES"));
  default_tags := {[ "AutoTagged" := JStr "true"; "ManagedBy" := JStr "AutoTagger" ]}
|}.

(** ** The functions of [lambda_function.py] *)

Section Dispatcher.

(** The state the functions read: the [CONFIG] global, the process
    environment, and the reading of the clock,
    [datetime.utcnow().isoformat()]. *)
Variable cfg : config.
Variable environ : gmap string string.
Variable now : string.

Definition get_user_identity (event : json) : prog dict :=
  detail ← get event "detail" (JObj ∅);
  user_identity ← get detail "userIdentity" (JObj ∅);
  CreatedBy ← get user_identity "arn" (JStr "unknown");
  CreatedByType ← get user_identity "type" (JStr "unknown");
  CreatedByAccountId ← get user_identity "accountId" (JStr "unknown");
  CreatedAt ← get detail "eventTime" (JStr (now +:+ "Z"));
  let identity_info : dict :=
    {[ "CreatedBy" := CreatedBy;
       "CreatedByUser" := JStr "unknown";
       "CreatedByType" := CreatedByType;
       "CreatedByAccountId" := CreatedByAccountId;
       "CreatedAt" := CreatedAt ]} in
  type ← get user_identity "type" JNull;
  if eq_str type "IAMUser" then
    userName ← get user_identity "userName" (JStr "unknown");
    mret (<["CreatedByUser" := userName]> identity_info)
  else if eq_str type "AssumedRole" then
    sessionContext ← get user_identity "sessionContext" (JObj ∅);
    sessionIssuer ← get sessionContext "sessionIssuer" (JObj ∅);
    session_name ← get sessionIssuer "userName" JNull;
    session_name ←
      (if negb (truthy session_name) then
         arn_parts ← py_split CreatedBy "/";
         mret (match last arn_parts with
               | Some part => JStr part
               | None => JStr "unknown"
               end)
       else mret session_name);
    mret (<["CreatedByUser" := session_name]> identity_info)
  else if eq_str type "Root" then
    mret (<["CreatedByUser" := JStr "root"]> identity_info)
  else
    mret identity_info.

Definition tag_ec2_resource (resource_id : json) (resource_type : string)
    (tags : dict) (region : json) : prog unit :=
  try_except
    (call (ec2_create_tags region [resource_id] (tag_list tags)))
    (except_ClientError (fun e => Raise e)).

Definition tag_s3_bucket (bucket_name : json) (tags : dict) (region : json) : prog unit :=
  try_except
    (existing_tags ←
       try_except
         (response ← call (s3_get_bucket_tagging region bucket_name);
          mret (dict_of_tag_set (default [] response)))
         (except_ClientError (fun e =>
            if String.eqb (error_code e) "NoSuchTagSet" then Ret ∅ else Raise e));
     let existing_tags := update existing_tags tags in
     call (s3_put_bucket_tagging region bucket_name (tag_list existing_tags)))
    (except_ClientError (fun e => Raise e)).

Definition tag_rds_resource (resource_arn : json) (tags : dict) (region : json) : prog unit :=
  try_except
    (call (rds_add_tags_to_resource region resource_arn (tag_list tags)))
    (except_ClientError (fun e => Raise e)).

Definition tag_lambda_function (function_name : json) (tags : dict) (region : json) : prog unit :=
  try_except
    (is_arn ← py_startswith function_name "arn:";
     function_arn ←
       (if negb is_arn then
          FunctionArn ← call (lambda_get_function region function_name);
          mret (JStr FunctionArn)
        else mret function_name);
     call (lambda_tag_resource region function_arn tags))
    (except_ClientError (fun e => Raise e)).

Definition tag_dynamodb_table (table_name : json) (tags : dict) (region : json) : prog unit :=
  try_except
    (TableArn ← call (dynamodb_describe_table region table_name);
     call (dynamodb_tag_resource region (JStr TableArn) (tag_list tags)))
    (except_ClientError (fun e => Raise e)).

(** The dictionary [process_event] returns, by its three shapes. *)
Inductive result : Type :=
| skipped (reason : string)
| error (error : string) (event_name event_source : json)
| success (tagged_resources : list fstring) (tags_applied : dict)
    (event_name event_source : json).

(** The value under ['status']. *)
Definition status (r : result) : string :=
  match r with
  | skipped _ => "skipped"
  | error _ _ _ => "error"
  | success _ _ _ _ => "success"
  end.

(** The keys of the returned dictionary. *)
Definition keys (r : result) : list string :=
  match r with
  | skipped _ => ["status"; "reason"]
  | error _ _ _ => ["status"; "error"; "event_name"; "event_source"]
  | success _ _ _ _ =>
      ["status"; "tagged_resources"; "tags_applied"; "event_name"; "event_source"]
  end.

(** The loop of the [RunInstances] branch over the items still to visit;
    [tagged_resources] is the list appended to so far. *)
Fixpoint for_instance (instances : list json) (all_tags : dict) (aws_region : json)
    (tagged_resources : list fstring) : prog (list fstring) :=
  match instances with
  | [] => Ret tagged_resources
  | instance :: instances =>
      instance_id ← get instance "instanceId" JNull;
      if truthy instance_id then
        _ ← tag_ec2_resource instance_id "instance" all_tags aws_region;
        for_instance instances all_tags aws_region
          (tagged_resources ++ [FStr "ec2:instance:" instance_id])
      else for_instance instances all_tags aws_region tagged_resources
  end.

(** The [if]/[elif] chain inside the [try] of [process_event]; it returns
    [tagged_resources] as the chain leaves it. *)
Definition tag_created (detail event_name event_source : json) (all_tags : dict)
    (aws_region : json) : prog (list fstring) :=
  let tagged_resources : list fstring := [] in
  if eq_str event_source "ec2.amazonaws.com" && eq_str event_name "RunInstances" then
    response_elements ← get detail "responseElements" (JObj ∅);
    if truthy response_elements then
      instancesSet ← get response_elements "instancesSet" (JObj ∅);
      instances ← get instancesSet "items" (JList []);
      instances ← iter instances;
      for_instance instances all_tags aws_region tagged_resources
    else mret tagged_resources
  else if eq_str event_source "ec2.amazonaws.com" && eq_str event_name "CreateVolume" then
    response_elements ← get detail "responseElements" (JObj ∅);
    volume_id ← get response_elements "volumeId" JNull;
    if truthy volume_id then
      _ ← tag_ec2_resource volume_id "volume" all_tags aws_region;
      mret (tagged_resources ++ [FStr "ec2:volume:" volume_id])
    else mret tagged_resources
  else if eq_str event_source "ec2.amazonaws.com" && eq_str event_name "CreateSecurityGroup" then
    response_elements ← get detail "responseElements" (JObj ∅);
    group_id ← get response_elements "groupId" JNull;
    if truthy group_id then
      _ ← tag_ec2_resource group_id "security-group" all_tags aws_region;
      mret (tagged_resources ++ [FStr "ec2:security-group:" group_id])
    else mret tagged_resources
  else if eq_str event_source "s3.amazonaws.com" && eq_str event_name "CreateBucket" then
    request_parameters ← get detail "requestParameters" (JObj ∅);
    bucket_name ← get request_parameters "bucketName" JNull;
    if truthy bucket_name then
      _ ← tag_s3_bucket bucket_name all_tags aws_region;
      mret (tagged_resources ++ [FStr "s3:bucket:" bucket_name])
    else mret tagged_resources
  else if eq_str event_source "rds.amazonaws.com"
          && in_strings event_name ["CreateDBInstance"; "CreateDBCluster"] then
    response_elements ← get detail "responseElements" (JObj ∅);
    if eq_str event_name "CreateDBInstance" then
      db_instance ← get response_elements "dBInstanceArn" JNull;
      if truthy db_instance then
        _ ← tag_rds_resource db_instance all_tags aws_region;
        mret (tagged_resources ++ [FStr "rds:instance:" db_instance])
      else mret tagged_resources
    else
      db_cluster ← get response_elements "dBClusterArn" JNull;
      if truthy db_cluster then
        _ ← tag_rds_resource db_cluster all_tags aws_region;
        mret (tagged_resources ++ [FStr "rds:cluster:" db_cluster])
      else mret tagged_resources
  else if eq_str event_source "lambda.amazonaws.com"
          && eq_str event_name "CreateFunction20150331" then
    response_elements ← get detail "responseElements" (JObj ∅);
    function_name ← get response_elements "functionName" JNull;
    if truthy function_name then
      _ ← tag_lambda_function function_name all_tags aws_region;
      mret (tagged_resources ++ [FStr "lambda:function:" function_name])
    else mret tagged_resources
  else if eq_str event_source "dynamodb.amazonaws.com" && eq_str event_name "CreateTable" then
    response_elements ← get detail "responseElements" (JObj ∅);
    table_description ← get response_elements "tableDescription" (JObj ∅);
    table_name ← get table_description "tableName" JNull;
    if truthy table_name then
      _ ← tag_dynamodb_table table_name all_tags aws_region;
      mret (tagged_resources ++ [FStr "dynamodb:table:" table_name])
    else mret tagged_resources
  else if eq_str event_source "ec2.amazonaws.com" && eq_str event_name "CreateVpc" then
    response_elements ← get detail "responseElements" (JObj ∅);
    vpc ← get response_elements "vpc" (JObj ∅);
    vpc_id ← get vpc "vpcId" JNull;
    if truthy vpc_id then
      _ ← tag_ec2_resource vpc_id "vpc" all_tags aws_region;
      mret (tagged_resources ++ [FStr "ec2:vpc:" vpc_id])
    else mret tagged_resources
  else if eq_str event_source "ec2.amazonaws.com" && eq_str event_name "CreateSubnet" then
    response_elements ← get detail "responseElements" (JObj ∅);
    subnet ← get response_elements "subnet" (JObj ∅);
    subnet_id ← get subnet "subnetId" JNull;
    if truthy subnet_id then
      _ ← tag_ec2_resource subnet_id "subnet" all_tags aws_region;
      mret (tagged_resources ++ [FStr "ec2:subnet:" subnet_id])
    else mret tagged_resources
  else mret tagged_resources.

Definition process_event (event : json) : prog result :=
  detail ← get event "detail" (JObj ∅);
  event_name ← get detail "eventName" (JStr "");
  event_source ← get detail "eventSource" (JStr "");
  aws_region ← get detail "awsRegion" (JStr (default "us-east-1" (environ !! "AWS_REGION")));
  has_dot ← py_in "." event_source;
  service ←
    (if has_dot : bool then
       parts ← py_split event_source ".";
       Ret (JStr (hd "" parts))
     else Ret event_source);
  if in_strings service (excluded_services cfg) then
    mret (skipped "excluded_service")
  else
    user_tags ← get_user_identity event;
    let all_tags : dict := user_tags ∪ default_tags cfg in
    try_except
      (tagged_resources ← tag_created detail event_name event_source all_tags aws_region;
       mret (success tagged_resources all_tags event_name event_source))
      (except_Exception (fun e =>
         mret (error (str e) event_name event_source))).

End Dispatcher.

(** ** Running a program against the services *)

(** An implementation of the services over a state [W]: what each call
    answers or raises, and the state it leaves. *)
Definition services (W : Type) : Type :=
  forall c : api_call, W -> (exn + response c) * W.

(** What a run leaves: the value returned or the exception raised, the state
    of the services, and the calls made, in order. *)
Record outcome (A W : Type) : Type := Outcome {
  returned : exn + A;
  world : W;
  calls : list api_call
}.
Arguments Outcome {A W} returned world calls.
Arguments returned {A W} o.
Arguments world {A W} o.
Arguments calls {A W} o.

Fixpoint run {A W : Type} (aws : services W) (p : prog A) (w : W) : outcome A W :=
  match p with
  | Ret a => Outcome (inr a) w []
  | Raise e => Outcome (inl e) w []
  | Call c k =>
      let o := run aws (k (aws c w).1) (aws c w).2 in
      Outcome (returned o) (world o) (c :: calls o)
  end.

(** ** A simulated account *)

Module Sim.

(** The tags of every resource that exists, under its id, name or ARN; the
    ARN of each function and table, by name; and the calls that are made to
    fail, under ["<Operation>:<target>"], with the exception they raise. *)
Record cloud : Type := Cloud {
  tags_of : gmap string (gmap string string);
  arn_of : gmap string string;
  faults : gmap string exn
}.

Definition operation (c : api_call) : string :=
  match c with
  | ec2_create_tags _ _ _ => "CreateTags"
  | s3_get_bucket_tagging _ _ => "GetBucketTagging"
  | s3_put_bucket_tagging _ _ _ => "PutBucketTagging"
  | rds_add_tags_to_resource _ _ _ => "AddTagsToResource"
  | lambda_get_function _ _ => "GetFunction"
  | lambda_tag_resource _ _ _ => "TagResource"
  | dynamodb_describe_table _ _ => "DescribeTable"
  | dynamodb_tag_resource _ _ _ => "TagResource"
  end.

(** The resource a call names, when its argument is a string. *)
Definition target (c : api_call) : option string :=
  match c with
  | ec2_create_tags _ [JStr t] _
  | s3_get_bucket_tagging _ (JStr t)
  | s3_put_bucket_tagging _ (JStr t) _
  | rds_add_tags_to_resource _ (JStr t) _
  | lambda_get_function _ (JStr t)
  | lambda_tag_resource _ (JStr t) _
  | dynamodb_describe_table _ (JStr t)
  | dynamodb_tag_resource _ (JStr t) _ => Some t
  | _ => None
  end.

(** Tags as a service takes them: every value a string. *)
Fixpoint string_tags (ts : list (string * json)) : option (gmap string string) :=
  match ts with
  | [] => Some ∅
  | (k, JStr v) :: ts => m ← string_tags ts; Some (<[k := v]> m)
  | _ => None
  end.

Definition invalid : exn := Exception "Parameter validation failed".

Definition not_found (op t : string) : exn :=
  ClientError "ResourceNotFoundException"
    ("An error occurred (ResourceNotFoundException) when calling the " +:+ op
     +:+ " operation: " +:+ t +:+ " not found").

Definition set_tags (t : string) (d : gmap string string) (w : cloud) : cloud :=
  Cloud (<[t := d]> (tags_of w)) (arn_of w) (faults w).

(** A tagging call that adds to the tags of [t]. *)
Definition add_tags (op t : string) (ts : list (string * json)) (w : cloud) : (exn + unit) * cloud :=
  match string_tags ts, tags_of w !! t with
  | None, _ => (inl invalid, w)
  | Some _, None => (inl (not_found op t), w)
  | Some new, Some old => (inr (), set_tags t (new ∪ old) w)
  end.

(** A tagging call that replaces the tags of [t]. *)
Definition put_tags (op t : string) (ts : list (string * json)) (w : cloud) : (exn + unit) * cloud :=
  match string_tags ts, tags_of w !! t with
  | None, _ => (inl invalid, w)
  | Some _, None => (inl (not_found op t), w)
  | Some new, Some _ => (inr (), set_tags t new w)
  end.

Definition lookup_arn (op t : string) (w : cloud) : (exn + string) * cloud :=
  match arn_of w !! t with
  | Some arn => (inr arn, w)
  | None => (inl (not_found op t), w)
  end.

(** [GetBucketTagging]: a bucket without tags answers [NoSuchTagSet]. *)
Definition get_tags (t : string) (w : cloud) : (exn + option (list (string * string))) * cloud :=
  match tags_of w !! t with
  | None => (inl (not_found "GetBucketTagging" t), w)
  | Some d =>
      if decide (d = ∅) then
        (inl (ClientError "NoSuchTagSet"
                "An error occurred (NoSuchTagSet) when calling the GetBucketTagging operation: The TagSet does not exist"), w)
      else (inr (Some (map_to_list d)), w)
  end.

Definition serve (c : api_call) (t : string) : cloud -> (exn + response c) * cloud :=
  match c with
  | ec2_create_tags _ _ ts => add_tags "CreateTags" t ts
  | s3_get_bucket_tagging _ _ => get_tags t
  | s3_put_bucket_tagging _ _ ts => put_tags "PutBucketTagging" t ts
  | rds_add_tags_to_resource _ _ ts => add_tags "AddTagsToResource" t ts
  | lambda_get_function _ _ => lookup_arn "GetFunction" t
  | lambda_tag_resource _ _ d => add_tags "TagResource" t (map_to_list d)
  | dynamodb_describe_table _ _ => lookup_arn "DescribeTable" t
  | dynamodb_tag_resource _ _ ts => add_tags "TagResource" t ts
  end.

Definition aws : services cloud := fun c w =>
  match target c with
  | None => (inl invalid, w)
  | Some t =>
      match faults w !! (operation c +:+ ":" +:+ t) with
      | Some e => (inl e, w)
      | None => serve c t w
      end
  end.

End Sim.

(** ** Definitions the properties are stated with *)

(** The part of [s] before the first [c]; all of [s] when it has none. *)
Fixpoint before_first (c : ascii) (s : string) : string :=
  match s with
  | EmptyString => EmptyString
  | String c' s' => if Ascii.eqb c' c then EmptyString else String c' (before_first c s')
  end.

(** The service token of an event source, in the words of the
    specification: the substring before the first ['.']. *)
Definition service_token (event_source : string) : string :=
  before_first "." event_source.

(** What is left of [process_event] once the service has passed the test of
    the excluded services. *)
Definition dispatch (cfg : config) (environ : gmap string string) (now : string)
    (event : json) (d : dict) (event_source : json) : prog result :=
  let event_name := default (JStr "") (d !! "eventName") in
  let aws_region :=
    default (JStr (default "us-east-1" (environ !! "AWS_REGION"))) (d !! "awsRegion") in
  bind (get_user_identity now event) (fun user_tags =>
    let all_tags : dict := user_tags ∪ default_tags cfg in
    try_except
      (bind (tag_created (JObj d) event_name event_source all_tags aws_region)
         (fun tagged_resources =>
            Ret (success tagged_resources all_tags event_name event_source)))
      (except_Exception (fun e => Ret (error (str e) event_name event_source)))).

(** The pairs of event source and event name the chain of [process_event]
    has a branch for. *)
Definition routing_table : list (string * string) :=
  [ ("ec2.amazonaws.com", "RunInstances");
    ("ec2.amazonaws.com", "CreateVolume");
    ("ec2.amazonaws.com", "CreateSecurityGroup");
    ("s3.amazonaws.com", "CreateBucket");
    ("rds.amazonaws.com", "CreateDBInstance");
    ("rds.amazonaws.com", "CreateDBCluster");
    ("lambda.amazonaws.com", "CreateFunction20150331");
    ("dynamodb.amazonaws.com", "CreateTable");
    ("ec2.amazonaws.com", "CreateVpc");
    ("ec2.amazonaws.com", "CreateSubnet") ].

Definition routed (event_source event_name : json) : bool :=
  existsb (fun entry => eq_str event_source entry.1 && eq_str event_name entry.2)
    routing_table.

(** The part of [s] after the last [c]; all of [s] when it has none. *)
Fixpoint after_last (c : ascii) (s : string) : string :=
  match s with
  | EmptyString => EmptyString
  | String c' s' =>
      if contains c s' then after_last c s'
      else if Ascii.eqb c' c then s' else String c' s'
  end.

(** The user name of the session issuer of an identity whose
    [sessionContext] and [sessionIssuer] are absent or objects; [None] for
    another shape. *)
Definition issuer_user_name (ui : dict) : option json :=
  match default (JObj ∅) (ui !! "sessionContext") with
  | JObj sc =>
      match default (JObj ∅) (sc !! "sessionIssuer") with
      | JObj si => Some (default JNull (si !! "userName"))
      | _ => None
      end
  | _ => None
  end.

(** The display name of an identity by the resolution rule of the
    specification, with "present" read as the code tests it: present and
    truthy. [None] when the identity has not the shape the rule needs. *)
Definition resolved_name (ui : dict) : option json :=
  let type := default JNull (ui !! "type") in
  if eq_str type "IAMUser" then
    Some (default (JStr "unknown") (ui !! "userName"))
  else if eq_str type "AssumedRole" then
    match issuer_user_name ui with
    | None => None
    | Some name =>
        if truthy name then Some name
        else match default (JStr "unknown") (ui !! "arn") with
             | JStr arn => Some (JStr (after_last "/" arn))
             | _ => None
             end
    end
  else if eq_str type "Root" then Some (JStr "root")
  else Some (JStr "unknown").

(** The identity dictionary of a [userIdentity] [ui] in an event detail
    [d], with display name [name]. *)
Definition identity_of (now : string) (d ui : dict) (name : json) : dict :=
  {[ "CreatedBy" := default (JStr "unknown") (ui !! "arn");
     "CreatedByUser" := name;
     "CreatedByType" := default (JStr "unknown") (ui !! "type");
     "CreatedByAccountId" := default (JStr "unknown") (ui !! "accountId");
     "CreatedAt" := default (JStr (now +:+ "Z")) (d !! "eventTime") ]}.

(** The keys of the identity dictionary: creator ARN, display name,
    principal type, account id and creation timestamp. *)
Definition identity_keys : list string :=
  ["CreatedBy"; "CreatedByUser"; "CreatedByType"; "CreatedByAccountId"; "CreatedAt"].

(** An item of the instances of a launch that carries the instance id
    [instance_id]. *)
Definition has_id (instance instance_id : json) : Prop :=
  exists o : dict,
    instance = JObj o /\ o !! "instanceId" = Some instance_id /\ truthy instance_id = true.

(** The [CreateTags] call [tag_ec2_resource] makes for one resource. *)
Definition create_tags (region : json) (tags : dict) (resource_id : json) : api_call :=
  ec2_create_tags region [resource_id] (tag_list tags).

(** The state of the services once they have tagged the resources [ids],
    one call after the other; [None] when one of the calls raises. *)
Fixpoint tagged_all {W : Type} (aws : services W) (region : json) (tags : dict)
    (ids : list json) (w : W) : option W :=
  match ids with
  | [] => Some w
  | resource_id :: ids =>
      match aws (create_tags region tags resource_id) w with
      | (inr _, w') => tagged_all aws region tags ids w'
      | (inl _, _) => None
      end
  end.

(** ** The helpers of [lambda_function.py] outside the dispatch path *)

(** [sep.join(parts)] *)
Fixpoint join (sep : string) (parts : list string) : string :=
  match parts with
  | [] => ""
  | [part] => part
  | part :: parts => part +:+ sep +:+ join sep parts
  end.

(** [parts[i] if len(parts) > i else ''] *)
Definition part_or_empty (parts : list string) (i : nat) : string :=
  if Nat.ltb i (length parts) then nth i parts "" else "".

Definition parse_arn (arn : string) : gmap string string :=
  let parts := split ":" arn in
  {[ "partition" := part_or_empty parts 1;
     "service" := part_or_empty parts 2;
     "region" := part_or_empty parts 3;
     "account" := part_or_empty parts 4;
     "resource" := if Nat.ltb 5 (length parts) then join ":" (drop 5 parts) else "" ]}.

Section Clients.

(** The clients of the SDK, and [boto3.client(service_name, region_name=...)],
    [region_name] being [None] when the call gives none. *)
Variable client : Type.
Variable boto3_client : string -> option string -> client.

(** [region or 'default'], for a region that is [None] or a string. *)
Definition region_or_default (region : option string) : string :=
  match region with
  | Some r => if String.eqb r "" then "default" else r
  | None => "default"
  end.

(** [f"{service_name}_{region or 'default'}"] *)
Definition client_key (service_name : string) (region : option string) : string :=
  service_name +:+ "_" +:+ region_or_default region.

(** The client [get_client] makes when the cache has none: [if region:]
    chooses between the two calls of [boto3.client]. *)
Definition new_client (service_name : string) (region : option string) : client :=
  match region with
  | Some r => if String.eqb r "" then boto3_client service_name None
              else boto3_client service_name (Some r)
  | None => boto3_client service_name None
  end.

(** [get_client], on the global [CLIENTS] it reads and leaves. *)
Definition get_client (service_name : string) (region : option string)
    (CLIENTS : gmap string client) : client * gmap string client :=
  match CLIENTS !! client_key service_name region with
  | Some c => (c, CLIENTS)
  | None =>
      let c := new_client service_name region in
      (c, <[client_key service_name region := c]> CLIENTS)
  end.

(** [CLIENTS] after the requests [requests], made in order. *)
Definition after_requests (requests : list (string * option string))
    (CLIENTS : gmap string client) : gmap string client :=
  fold_left (fun C request => (get_client request.1 request.2 C).2) requests CLIENTS.

(** Every client of the cache was made for the service and region of its
    key, the name of the service without ['_']. *)
Definition made_for_key (CLIENTS : gmap string client) : Prop :=
  forall (k : string) (c : client),
    CLIENTS !! k = Some c ->
    exists (s : string) (r : option string),
      k = client_key s r /\ c = new_client s r /\ contains "_" s = false.

End Clients.

Arguments new_client {client} boto3_client service_name region.
Arguments get_client {client} boto3_client service_name region CLIENTS.
Arguments after_requests {client} boto3_client requests CLIENTS.
Arguments made_for_key {client} boto3_client CLIENTS.

(** ** [lambda_handler] *)

(** The body of a response: what [json.dumps] is given, kept as the value
    and not as its text. *)
Inductive body : Type :=
| body_result (r : result)
| body_error (status error : string).

Record http_response : Type := {
  statusCode : Z;
  response_body : body
}.

(** [result.get('tagged_resources')] *)
Definition tagged_resources_of (r : result) : list fstring :=
  match r with
  | success tagged_resources _ _ _ => tagged_resources
  | _ => []
  end.

Section Handler.

Variable cfg : config.
Variable environ : gmap string string.
Variable now : string.

(** Of the logging of [lambda_handler], what is evaluated for the message:
    the [else] branch reads the name of the event again. *)
Definition log_result (event : json) (r : result) : prog unit :=
  if String.eqb (status r) "success"
     && match tagged_resources_of r with [] => false | _ => true end
  then Ret ()
  else if String.eqb (status r) "skipped" then Ret ()
  else
    detail ← get event "detail" (JObj ∅);
    _ ← get detail "eventName" JNull;
    Ret ().

Definition lambda_handler (event : json) (context : json) : prog http_response :=
  try_except
    (r ← process_event cfg environ now event;
     _ ← log_result event r;
     mret {| statusCode := 200; response_body := body_result r |})
    (except_Exception (fun e =>
       mret {| statusCode := 500; response_body := body_error "error" (str e) |})).

End Handler.

(** ** The branches of [process_event] as a table *)

(** A branch that tags one resource: the event it answers, the member of
    the detail it reads, the keys that lead from there to the id of the
    resource, the label the resource gets in [tagged_resources], and the
    function that tags it. *)
Record route : Type := Route {
  route_source : string;
  route_name : string;
  route_member : string;
  route_path : list string;
  route_label : string;
  route_tag : json -> dict -> json -> prog unit
}.

Definition routes : list route :=
  [ Route "ec2.amazonaws.com" "CreateVolume" "responseElements" ["volumeId"]
      "ec2:volume:" (fun resource_id => tag_ec2_resource resource_id "volume");
    Route "ec2.amazonaws.com" "CreateSecurityGroup" "responseElements" ["groupId"]
      "ec2:security-group:" (fun resource_id => tag_ec2_resource resource_id "security-group");
    Route "s3.amazonaws.com" "CreateBucket" "requestParameters" ["bucketName"]
      "s3:bucket:" tag_s3_bucket;
    Route "rds.amazonaws.com" "CreateDBInstance" "responseElements" ["dBInstanceArn"]
      "rds:instance:" tag_rds_resource;
    Route "rds.amazonaws.com" "CreateDBCluster" "responseElements" ["dBClusterArn"]
      "rds:cluster:" tag_rds_resource;
    Route "lambda.amazonaws.com" "CreateFunction20150331" "responseElements" ["functionName"]
      "lambda:function:" tag_lambda_function;
    Route "dynamodb.amazonaws.com" "CreateTable" "responseElements"
      ["tableDescription"; "tableName"] "dynamodb:table:" tag_dynamodb_table;
    Route "ec2.amazonaws.com" "CreateVpc" "responseElements" ["vpc"; "vpcId"]
      "ec2:vpc:" (fun resource_id => tag_ec2_resource resource_id "vpc");
    Route "ec2.amazonaws.com" "CreateSubnet" "responseElements" ["subnet"; "subnetId"]
      "ec2:subnet:" (fun resource_id => tag_ec2_resource resource_id "subnet") ].

(** The value the chained [.get] calls of a branch reach from [v]: a key
    before the last defaults to an empty dictionary, the last to [None];
    there is no value when a [.get] meets what is no dictionary. *)
Fixpoint value_at (v : json) (path : list string) : option json :=
  match path with
  | [] => Some v
  | k :: path =>
      match v with
      | JObj o =>
          match path with
          | [] => Some (default JNull (o !! k))
          | _ => value_at (default (JObj ∅) (o !! k)) path
          end
      | _ => None
      end
  end.

(** ** What a call says *)

(** The service a call is made on: the name [get_client] is given for the
    client of the call. *)
Definition call_service (c : api_call) : string :=
  match c with
  | ec2_create_tags _ _ _ => "ec2"
  | s3_get_bucket_tagging _ _ | s3_put_bucket_tagging _ _ _ => "s3"
  | rds_add_tags_to_resource _ _ _ => "rds"
  | lambda_get_function _ _ | lambda_tag_resource _ _ _ => "lambda"
  | dynamodb_describe_table _ _ | dynamodb_tag_resource _ _ _ => "dynamodb"
  end.

(** The tags a call writes; [None] for a call that only reads. *)
Definition call_tags (c : api_call) : option (list (string * json)) :=
  match c with
  | ec2_create_tags _ _ ts
  | s3_put_bucket_tagging _ _ ts
  | rds_add_tags_to_resource _ _ ts
  | dynamodb_tag_resource _ _ ts => Some ts
  | lambda_tag_resource _ _ tags => Some (map_to_list tags)
  | _ => None
  end.

(** Every call a program can make satisfies [P], whatever the calls before
    it answered or raised. *)
Inductive all_calls {A : Type} (P : api_call -> Prop) : prog A -> Prop :=
| all_calls_Ret (a : A) : all_calls P (Ret a)
| all_calls_Raise (e : exn) : all_calls P (Raise e)
| all_calls_Call (c : api_call) (k : exn + response c -> prog A) :
    P c -> (forall r, all_calls P (k r)) -> all_calls P (Call c k).

(** A call of the dispatch of an event: a call of the service of the event
    that, when it writes tags, writes [all_tags], laid over the tags read
    from the bucket when the call is the one of a bucket and over nothing
    otherwise. *)
Definition sent_for (event_source : json) (all_tags : dict) (c : api_call) : Prop :=
  event_source = JStr (call_service c +:+ ".amazonaws.com")
  /\ (forall ts, call_tags c = Some ts ->
      exists existing_tags : dict,
        ts = tag_list (update existing_tags all_tags)
        /\ (call_service c <> "s3" -> existing_tags = ∅)).

(** The ids the loop over the instances of a launch tags, in order: an item
    without [instanceId], or with a falsy one, is passed over; there is no
    list when an item is no dictionary. *)
Fixpoint instance_ids (instances : list json) : option (list json) :=
  match instances with
  | [] => Some []
  | JObj o :: instances =>
      ids ← instance_ids instances;
      let instance_id := default JNull (o !! "instanceId") in
      Some (if truthy instance_id then instance_id :: ids else ids)
  | _ => None
  end.

(** The ids the launch branch of [process_event] tags: none when
    [responseElements] is absent or falsy, else those of the items under
    [instancesSet]; there is no list when a [.get] meets what is no
    dictionary or the items are no list. *)
Definition launch_ids (d : dict) : option (list json) :=
  let response_elements := default (JObj ∅) (d !! "responseElements") in
  if truthy response_elements then
    match response_elements with
    | JObj re =>
        match default (JObj ∅) (re !! "instancesSet") with
        | JObj iset =>
            match default (JList []) (iset !! "items") with
            | JList instances => instance_ids instances
            | _ => None
            end
        | _ => None
        end
    | _ => None
    end
  else Some [].

(** ** Events and accounts of the examples *)

(** An event of the audit trail itself, with a [userIdentity] from which no
    identity could be extracted. *)
Definition cloudtrail_event : dict :=
  {[ "detail" := JObj {[ "eventSource" := JStr "cloudtrail.amazonaws.com";
                         "eventName" := JStr "CreateTrail";
                         "userIdentity" := JNull ]} ]}.

Definition alice : json :=
  JObj {[ "type" := JStr "IAMUser";
          "arn" := JStr "arn:aws:iam::123456789012:user/alice";
          "accountId" := JStr "123456789012";
          "userName" := JStr "alice" ]}.

(** The identity [get_user_identity] extracts from an event of [alice] at
    [2024-12-25T10:30:00Z]. *)
Definition alice_identity : dict :=
  {[ "CreatedBy" := JStr "arn:aws:iam::123456789012:user/alice";
     "CreatedByUser" := JStr "alice";
     "CreatedByType" := JStr "IAMUser";
     "CreatedByAccountId" := JStr "123456789012";
     "CreatedAt" := JStr "2024-12-25T10:30:00Z" ]}.

(** The tags [process_event] computes for an event of [alice] at
    [2024-12-25T10:30:00Z] under [CONFIG]. *)
Definition alice_tags : dict :=
  {[ "AutoTagged" := JStr "true";
     "ManagedBy" := JStr "AutoTagger";
     "CreatedBy" := JStr "arn:aws:iam::123456789012:user/alice";
     "CreatedByUser" := JStr "alice";
     "CreatedByType" := JStr "IAMUser";
     "CreatedByAccountId" := JStr "123456789012";
     "CreatedAt" := JStr "2024-12-25T10:30:00Z" ]}.

(** An event the chain has no branch for. *)
Definition create_topic_event : dict :=
  {[ "detail" := JObj {[ "eventSource" := JStr "sns.amazonaws.com";
                         "eventName" := JStr "CreateTopic";
                         "awsRegion" := JStr "us-east-1";
                         "eventTime" := JStr "2024-12-25T10:30:00Z";
                         "userIdentity" := alice ]} ]}.

(** A launch that failed: the event has no response elements. *)
Definition failed_launch_event : dict :=
  {[ "detail" := JObj {[ "eventSource" := JStr "ec2.amazonaws.com";
                         "eventName" := JStr "RunInstances";
                         "awsRegion" := JStr "us-east-1";
                         "eventTime" := JStr "2024-12-25T10:30:00Z";
                         "userIdentity" := alice;
                         "responseElements" := JNull ]} ]}.

(** An identity that has nothing but its type. *)
Definition partial_identity_event : dict :=
  {[ "detail" := JObj {[ "userIdentity" := JObj {[ "type" := JStr "IAMUser" ]} ]} ]}.

(** An event whose [userIdentity] is [null]. *)
Definition null_identity_event : dict :=
  {[ "detail" := JObj {[ "userIdentity" := JNull ]} ]}.

(** A role session whose issuer has an empty user name. *)
Definition unnamed_issuer : dict :=
  {[ "type" := JStr "AssumedRole";
     "arn" := JStr "arn:aws:sts::123456789012:assumed-role/Admin/session1";
     "accountId" := JStr "123456789012";
     "sessionContext" := JObj {[ "sessionIssuer" := JObj {[ "userName" := JStr "" ]} ]} ]}.

Definition unnamed_issuer_event : dict :=
  {[ "detail" := JObj {[ "eventTime" := JStr "2024-12-25T10:30:00Z";
                         "userIdentity" := JObj unnamed_issuer ]} ]}.

(** A launch of one instance by [alice]. *)
Definition launch_event : dict :=
  {[ "detail" := JObj {[ "eventSource" := JStr "ec2.amazonaws.com";
                         "eventName" := JStr "RunInstances";
                         "awsRegion" := JStr "us-east-1";
                         "eventTime" := JStr "2024-12-25T10:30:00Z";
                         "userIdentity" := alice;
                         "responseElements" := JObj {[ "instancesSet" := JObj {[
                            "items" := JList [JObj {[ "instanceId" := JStr "i-100" ]}] ]} ]} ]} ]}.

(** An account that holds the instance, without tags. *)
Definition launch_account : Sim.cloud := Sim.Cloud {[ "i-100" := ∅ ]} ∅ ∅.

(** An event that carries no [eventTime]. *)
Definition undated_event : dict :=
  {[ "detail" := JObj {[ "eventSource" := JStr "sns.amazonaws.com";
                         "eventName" := JStr "CreateTopic";
                         "userIdentity" := alice ]} ]}.

(** The tags of an event of [alice] whose [CreatedAt] is [timestamp]. *)
Definition alice_tags_at (timestamp : string) : dict :=
  <["CreatedAt" := JStr timestamp]> alice_tags.

(** The tags of [alice_tags] as a service holds them. *)
Definition alice_string_tags : gmap string string :=
  {[ "AutoTagged" := "true";
     "ManagedBy" := "AutoTagger";
     "CreatedBy" := "arn:aws:iam::123456789012:user/alice";
     "CreatedByUser" := "alice";
     "CreatedByType" := "IAMUser";
     "CreatedByAccountId" := "123456789012";
     "CreatedAt" := "2024-12-25T10:30:00Z" ]}.

Definition instance (instance_id : string) : json :=
  JObj {[ "instanceId" := JStr instance_id ]}.

Definition three_instances : dict :=
  {[ "items" := JList [instance "i-1"; instance "i-2"; instance "i-3"] ]}.

Definition three_launch_detail : dict :=
  {[ "eventSource" := JStr "ec2.amazonaws.com";
     "eventName" := JStr "RunInstances";
     "awsRegion" := JStr "us-east-1";
     "eventTime" := JStr "2024-12-25T10:30:00Z";
     "userIdentity" := alice;
     "responseElements" := JObj {[ "instancesSet" := JObj three_instances ]} ]}.

(** A launch of three instances by [alice]. *)
Definition three_launch_event : dict := {[ "detail" := JObj three_launch_detail ]}.

Definition unauthorized : exn :=
  ClientError "UnauthorizedOperation"
    "An error occurred (UnauthorizedOperation) when calling the CreateTags operation: You are not authorized to perform this operation.".

(** An account that holds the three instances, without tags, and rejects
    the tagging of the second. *)
Definition three_account : Sim.cloud :=
  Sim.Cloud {[ "i-1" := ∅; "i-2" := ∅; "i-3" := ∅ ]} ∅ {[ "CreateTags:i-2" := unauthorized ]}.

(** The account once the first instance is tagged. *)
Definition three_account_after : Sim.cloud :=
  Sim.Cloud {[ "i-1" := alice_string_tags; "i-2" := ∅; "i-3" := ∅ ]} ∅
    {[ "CreateTags:i-2" := unauthorized ]}.

(** An account whose bucket [demo-bucket] holds two tags of others. *)
Definition bucket_account : Sim.cloud :=
  Sim.Cloud {[ "demo-bucket" := {[ "Owner" := "bob"; "CreatedByUser" := "carol" ]} ]} ∅ ∅.

(** The creation of the function [resize] by [alice]. *)
Definition create_function_detail : dict :=
  {[ "eventSource" := JStr "lambda.amazonaws.com";
     "eventName" := JStr "CreateFunction20150331";
     "awsRegion" := JStr "us-east-1";
     "eventTime" := JStr "2024-12-25T10:30:00Z";
     "userIdentity" := alice;
     "responseElements" := JObj {[ "functionName" := JStr "resize" ]} ]}.

Definition create_function_event : dict := {[ "detail" := JObj create_function_detail ]}.

Definition resize_arn : string := "arn:aws:lambda:us-east-1:123456789012:function:resize".

(** The SDK finds no credentials to sign a request with. *)
Definition no_credentials : exn := Exception "Unable to locate credentials".

(** An account that holds the function and fails the call [fault] on it. *)
Definition function_account (fault : string) : Sim.cloud :=
  Sim.Cloud {[ resize_arn := ∅ ]} {[ "resize" := resize_arn ]} {[ fault := no_credentials ]}.

(** The dispatch of the creation event against an account. *)
Definition dispatch_function (account : Sim.cloud) : outcome result Sim.cloud :=
  run Sim.aws
    (process_event (CONFIG ∅) ∅ "2024-12-25T10:30:05" (JObj create_function_event)) account.

(** The creation of a volume by [alice], and the event of a creation that
    failed. *)
Definition volume_detail (responseElements : json) : dict :=
  {[ "eventSource" := JStr "ec2.amazonaws.com";
     "eventName" := JStr "CreateVolume";
     "awsRegion" := JStr "us-east-1";
     "eventTime" := JStr "2024-12-25T10:30:00Z";
     "userIdentity" := alice;
     "responseElements" := responseElements ]}.

Definition volume_event (responseElements : json) : dict :=
  {[ "detail" := JObj (volume_detail responseElements) ]}.

Definition volume_route : route :=
  Route "ec2.amazonaws.com" "CreateVolume" "responseElements" ["volumeId"]
    "ec2:volume:" (fun resource_id => tag_ec2_resource resource_id "volume").

(** An account that holds the volume, without tags. *)
Definition volume_account : Sim.cloud := Sim.Cloud {[ "vol-1" := ∅ ]} ∅ ∅.

(** * Properties *)

(** ** Programs and runs *)

Ltac unfold_prog :=
  unfold mbind, prog_bind, mret, prog_ret in *.

Lemma run_bind {A B W : Type} (aws : services W) (p : prog A) (f : A -> prog B) (w : W) :
  run aws (bind p f) w =
  match returned (run aws p w) with
  | inl e => Outcome (inl e) (world (run aws p w)) (calls (run aws p w))
  | inr a =>
      let o := run aws (f a) (world (run aws p w)) in
      Outcome (returned o) (world o) (calls (run aws p w) ++ calls o)
  end.
Proof.
  revert w. induction p as [a|e|c k IH]; intros w; simpl.
  - destruct (run aws (f a) w); reflexivity.
  - reflexivity.
  - rewrite IH. destruct (run aws (k (aws c w).1) (aws c w).2) as [[e|a] w' cs]; reflexivity.
Qed.

Lemma run_try_except {A W : Type} (aws : services W) (p : prog A)
    (except : exn -> option (prog A)) (w : W) :
  run aws (try_except p except) w =
  match returned (run aws p w) with
  | inr a => run aws p w
  | inl e =>
      match except e with
      | None => run aws p w
      | Some h =>
          let o := run aws h (world (run aws p w)) in
          Outcome (returned o) (world o) (calls (run aws p w) ++ calls o)
      end
  end.
Proof.
  revert w. induction p as [a|e|c k IH]; intros w; simpl.
  - done.
  - destruct (except e) as [h|]; [|reflexivity]. destruct (run aws h w); reflexivity.
  - rewrite IH. destruct (run aws (k (aws c w).1) (aws c w).2) as [[e|a] w' cs]; simpl.
    + destruct (except e); reflexivity.
    + reflexivity.
Qed.

(** ** Strings *)


Lemma split_nonempty (c : ascii) (s : string) : split c s <> [].
Proof.
  induction s as [|c' s IH]; simpl; [done|].
  destruct (Ascii.eqb c' c); [done|]. by destruct (split c s).
Qed.

Lemma hd_split (c : ascii) (s : string) : hd "" (split c s) = before_first c s.
Proof.
  induction s as [|c' s IH]; simpl; [done|].
  destruct (Ascii.eqb c' c); [done|].
  pose proof (split_nonempty c s). destruct (split c s); [done|].
  simpl in *. by rewrite IH.
Qed.

Lemma before_first_none (c : ascii) (s : string) :
  contains c s = false -> before_first c s = s.
Proof.
  induction s as [|c' s IH]; simpl; [done|].
  destruct (Ascii.eqb c' c); simpl; [done|]. intros H. by rewrite IH.
Qed.

Lemma in_strings_str (s : string) (l : list string) :
  in_strings (JStr s) l = true <-> s ∈ l.
Proof.
  unfold in_strings. rewrite existsb_exists. split.
  - intros (x & Hx & Heq). simpl in Heq. apply String.eqb_eq in Heq. subst.
    by apply list_elem_of_In.
  - intros Hin. exists s. split; [by apply list_elem_of_In|]. simpl. apply String.eqb_refl.
Qed.

(** ** The head of [process_event] *)



Lemma process_event_head (cfg : config) (environ : gmap string string) (now : string)
    (m d : dict) (s : string) :
  default (JObj ∅) (m !! "detail") = JObj d ->
  default (JStr "") (d !! "eventSource") = JStr s ->
  process_event cfg environ now (JObj m) =
  if in_strings (JStr (service_token s)) (excluded_services cfg)
  then Ret (skipped "excluded_service")
  else dispatch cfg environ now (JObj m) d (JStr s).
Proof.
  intros Hd Hs. unfold process_event, dispatch, service_token. unfold_prog. simpl.
  rewrite Hd. simpl. rewrite Hs. simpl.
  destruct (contains "." s) eqn:Hdot; simpl.
  - rewrite hd_split. reflexivity.
  - rewrite (before_first_none _ _ Hdot). reflexivity.
Qed.

(** ** C3: excluded services *)

(** C3. For every event whose service token, the substring of [eventSource]
    before the first ['.'], is in the excluded services of the configuration,
    [process_event] returns status [skipped] as a program that makes no
    call: whatever [eventName] and [userIdentity] hold, neither the identity
    nor a resource is extracted, and a run against any services makes no call
    and leaves them as they were. The set is [cloudtrail] and [logs] when the
    environment sets none. *)
Theorem excluded_service_skipped (cfg : config) (environ : gmap string string)
    (now : string) (m d : dict) (s : string) :
  m !! "detail" = Some (JObj d) ->
  d !! "eventSource" = Some (JStr s) ->
  service_token s ∈ excluded_services cfg ->
  process_event cfg environ now (JObj m) = Ret (skipped "excluded_service")
  /\ status (skipped "excluded_service") = "skipped"
  /\ (forall (W : Type) (aws : services W) (w : W),
        run aws (process_event cfg environ now (JObj m)) w
        = Outcome (inr (skipped "excluded_service")) w [])
  /\ excluded_services (CONFIG ∅) = ["cloudtrail"; "logs"].
Proof.
  intros Hd Hs Hin.
  assert (process_event cfg environ now (JObj m) = Ret (skipped "excluded_service")) as Heq.
  { rewrite (process_event_head cfg environ now m d s).
    - apply in_strings_str in Hin. by rewrite Hin.
    - by rewrite Hd.
    - by rewrite Hs. }
  split; [exact Heq|]. split; [reflexivity|]. split; [|reflexivity].
  intros W aws w. rewrite Heq. reflexivity.
Qed.


Lemma excluded_service_skipped_witness :
  process_event (CONFIG ∅) ∅ "2024-12-25T10:30:00" (JObj cloudtrail_event)
  = Ret (skipped "excluded_service").
Proof.
  refine (proj1 (excluded_service_skipped (CONFIG ∅) ∅ "2024-12-25T10:30:00"
    cloudtrail_event
    {[ "eventSource" := JStr "cloudtrail.amazonaws.com";
       "eventName" := JStr "CreateTrail";
       "userIdentity" := JNull ]}
    "cloudtrail.amazonaws.com" _ _ _)).
  - reflexivity.
  - reflexivity.
  - vm_compute. apply list_elem_of_here.
Defined.

(** ** C2: an event without a route *)

Lemma tag_created_unrouted (detail event_name event_source : json) (all_tags : dict)
    (aws_region : json) :
  routed event_source event_name = false ->
  tag_created detail event_name event_source all_tags aws_region = Ret [].
Proof.
  unfold routed, routing_table, tag_created, in_strings. simpl.
  repeat match goal with
    | |- context [eq_str ?v ?s] => destruct (eq_str v s); simpl
    end.
  all: first [discriminate | reflexivity].
Qed.

(** What [dispatch] is once the identity has been extracted. *)
Lemma dispatch_identity (cfg : config) (environ : gmap string string) (now : string)
    (event : json) (d : dict) (event_source : json) (user_tags : dict) :
  get_user_identity now event = Ret user_tags ->
  dispatch cfg environ now event d event_source =
  try_except
    (bind (tag_created (JObj d) (default (JStr "") (d !! "eventName")) event_source
             (user_tags ∪ default_tags cfg)
             (default (JStr (default "us-east-1" (environ !! "AWS_REGION"))) (d !! "awsRegion")))
       (fun tagged_resources =>
          Ret (success tagged_resources (user_tags ∪ default_tags cfg)
                 (default (JStr "") (d !! "eventName")) event_source)))
    (except_Exception (fun e =>
       Ret (error (str e) (default (JStr "") (d !! "eventName")) event_source))).
Proof. intros H. unfold dispatch. rewrite H. reflexivity. Qed.

Lemma not_in_strings (s : string) (l : list string) :
  s ∉ l -> in_strings (JStr s) l = false.
Proof.
  intros H. destruct (in_strings (JStr s) l) eqn:E; [|reflexivity].
  apply in_strings_str in E. contradiction.
Qed.

(** C2 fails as stated: an event without a branch, and a routed event
    without a resource, both get status [success], not [skipped]. *)
Lemma no_match_not_skipped :
  routed (JStr "sns.amazonaws.com") (JStr "CreateTopic") = false
  /\ process_event (CONFIG ∅) ∅ "2024-12-25T10:30:05" (JObj create_topic_event)
     = Ret (success [] alice_tags (JStr "CreateTopic") (JStr "sns.amazonaws.com"))
  /\ routed (JStr "ec2.amazonaws.com") (JStr "RunInstances") = true
  /\ process_event (CONFIG ∅) ∅ "2024-12-25T10:30:05" (JObj failed_launch_event)
     = Ret (success [] alice_tags (JStr "RunInstances") (JStr "ec2.amazonaws.com"))
  /\ (forall tags en es, status (success [] tags en es) <> "skipped").
Proof.
  repeat split; try (vm_compute; reflexivity). intros tags en es. discriminate.
Qed.

(** ** Identity extraction *)

Lemma split_none (c : ascii) (s : string) :
  contains c s = false -> split c s = [s].
Proof.
  induction s as [|c' s IH]; simpl; [done|].
  destruct (Ascii.eqb c' c); simpl; [done|]. intros H. by rewrite IH.
Qed.

Lemma split_some (c : ascii) (s : string) :
  contains c s = true -> exists w w' ws, split c s = w :: w' :: ws.
Proof.
  induction s as [|c' s IH]; simpl; [done|].
  destruct (Ascii.eqb c' c); simpl.
  - intros _. pose proof (split_nonempty c s). destruct (split c s) as [|w ws]; [done|].
    by exists "", w, ws.
  - intros H. destruct (IH H) as (w & w' & ws & ->). by exists (String c' w), w', ws.
Qed.

Lemma after_last_none (c : ascii) (s : string) :
  contains c s = false -> after_last c s = s.
Proof.
  destruct s as [|c' s]; simpl; [done|].
  destruct (Ascii.eqb c' c); simpl; [done|]. by intros ->.
Qed.

Lemma last_split (c : ascii) (s : string) : last (split c s) = Some (after_last c s).
Proof.
  induction s as [|c' s IH]; simpl; [done|].
  destruct (contains c s) eqn:Hc.
  - destruct (split_some c s Hc) as (w & w' & ws & Hs). rewrite Hs in *.
    destruct (Ascii.eqb c' c); exact IH.
  - rewrite (split_none c s Hc). by destruct (Ascii.eqb c' c).
Qed.

(** [get_user_identity] on an event whose detail and user identity are
    absent or objects, and whose identity has the shape the resolution of
    the name needs. *)
Lemma get_user_identity_shaped (now : string) (m d ui : dict) (name : json) :
  default (JObj ∅) (m !! "detail") = JObj d ->
  default (JObj ∅) (d !! "userIdentity") = JObj ui ->
  resolved_name ui = Some name ->
  get_user_identity now (JObj m) = Ret (identity_of now d ui name).
Proof.
  intros Hd Hui. unfold get_user_identity, resolved_name, issuer_user_name, identity_of.
  unfold_prog. simpl. rewrite Hd. simpl. rewrite Hui. simpl.
  destruct (eq_str (default JNull (ui !! "type")) "IAMUser").
  { intros [= <-]. reflexivity. }
  destruct (eq_str (default JNull (ui !! "type")) "AssumedRole").
  { destruct (default (JObj ∅) (ui !! "sessionContext")) as [| | | | |sc]; try discriminate.
    simpl.
    destruct (default (JObj ∅) (sc !! "sessionIssuer")) as [| | | | |si]; try discriminate.
    simpl.
    destruct (truthy (default JNull (si !! "userName"))); simpl.
    - intros [= <-]. reflexivity.
    - destruct (default (JStr "unknown") (ui !! "arn")) as [| | |arn| |]; try discriminate.
      intros [= <-]. simpl. rewrite last_split. reflexivity. }
  destruct (eq_str (default JNull (ui !! "type")) "Root").
  { intros [= <-]. reflexivity. }
  intros [= <-]. reflexivity.
Qed.

(** [get_user_identity] makes no call, and a dictionary it returns has the
    five keys. *)
Lemma get_user_identity_cases (now : string) (event : json) :
  (exists e, get_user_identity now event = Raise e)
  \/ (exists identity_info,
        get_user_identity now event = Ret identity_info
        /\ Forall (fun k => is_Some (identity_info !! k)) identity_keys).
Proof.
  assert (forall t : dict,
    Forall (fun k => is_Some (t !! k)) identity_keys ->
    (exists e, @Ret dict t = Raise e)
    \/ (exists identity_info, Ret t = Ret identity_info
          /\ Forall (fun k => is_Some (identity_info !! k)) identity_keys)) as Hret.
  { intros t Ht. right. by exists t. }
  assert (forall (i : string) (v : json) (t : dict),
    Forall (fun k => is_Some (t !! k)) identity_keys ->
    Forall (fun k => is_Some (<[i := v]> t !! k)) identity_keys) as Hins.
  { intros i v t Ht. eapply Forall_impl; [exact Ht|]. intros k Hk. simpl.
    rewrite lookup_insert_is_Some. destruct (decide (i = k)); auto. }
  assert (forall a b c d e : json,
    Forall (fun k => is_Some (({[ "CreatedBy" := a; "CreatedByUser" := b;
      "CreatedByType" := c; "CreatedByAccountId" := d; "CreatedAt" := e ]} : dict) !! k))
      identity_keys) as Hbase.
  { intros. unfold identity_keys.
    repeat (apply Forall_cons; split; [eexists; reflexivity|]). by apply Forall_nil. }
  unfold get_user_identity. unfold_prog.
  destruct event as [| | | | |m]; simpl; try (left; eexists; reflexivity).
  destruct (default (JObj ∅) (m !! "detail")) as [| | | | |d]; simpl;
    try (left; eexists; reflexivity).
  destruct (default (JObj ∅) (d !! "userIdentity")) as [| | | | |ui]; simpl;
    try (left; eexists; reflexivity).
  destruct (eq_str _ "IAMUser"); [apply Hret, Hins, Hbase|].
  destruct (eq_str _ "AssumedRole").
  { destruct (default (JObj ∅) (ui !! "sessionContext")) as [| | | | |sc]; simpl;
      try (left; eexists; reflexivity).
    destruct (default (JObj ∅) (sc !! "sessionIssuer")) as [| | | | |si]; simpl;
      try (left; eexists; reflexivity).
    destruct (truthy _); simpl; [apply Hret, Hins, Hbase|].
    destruct (default (JStr "unknown") (ui !! "arn")); simpl;
      try (left; eexists; reflexivity).
    apply Hret, Hins, Hbase. }
  destruct (eq_str _ "Root"); [apply Hret, Hins, Hbase|].
  apply Hret, Hbase.
Qed.

Lemma eq_str_true (v : json) (s : string) : eq_str v s = true <-> v = JStr s.
Proof.
  destruct v; simpl; try (split; [discriminate|congruence]).
  rewrite String.eqb_eq. split; congruence.
Qed.

(** ** C5: the identity is fully populated *)

(** C5, as the code has it. For every event whose [detail] and
    [userIdentity] are absent or objects, be the identity empty or partly
    populated, and whose role session has the shape the name is resolved
    from, [get_user_identity] returns a dictionary with exactly the five
    keys: a missing ARN, type, account id or user name is ["unknown"], and a
    missing [eventTime] is the reading of the clock followed by ["Z"]. *)
Theorem identity_fully_populated (now : string) (m d ui : dict) (name : json) :
  default (JObj ∅) (m !! "detail") = JObj d ->
  default (JObj ∅) (d !! "userIdentity") = JObj ui ->
  resolved_name ui = Some name ->
  exists identity_info : dict,
    get_user_identity now (JObj m) = Ret identity_info
    /\ dom identity_info = list_to_set identity_keys
    /\ identity_info !! "CreatedBy" = Some (default (JStr "unknown") (ui !! "arn"))
    /\ identity_info !! "CreatedByUser" = Some name
    /\ identity_info !! "CreatedByType" = Some (default (JStr "unknown") (ui !! "type"))
    /\ identity_info !! "CreatedByAccountId"
       = Some (default (JStr "unknown") (ui !! "accountId"))
    /\ identity_info !! "CreatedAt" = Some (default (JStr (now +:+ "Z")) (d !! "eventTime"))
    /\ (ui !! "type" = None -> name = JStr "unknown")
    /\ (ui !! "type" = Some (JStr "IAMUser") -> ui !! "userName" = None ->
        name = JStr "unknown").
Proof.
  intros Hd Hui Hname. exists (identity_of now d ui name).
  split; [by apply get_user_identity_shaped|].
  repeat split; try reflexivity.
  - intros Ht. unfold resolved_name in Hname. rewrite Ht in Hname. simpl in Hname. congruence.
  - intros Ht Hn. unfold resolved_name in Hname. rewrite Ht, Hn in Hname. simpl in Hname.
    congruence.
Qed.

Lemma identity_fully_populated_witness :
  exists identity_info : dict,
    get_user_identity "2024-12-25T10:30:05" (JObj partial_identity_event) = Ret identity_info
    /\ identity_info !! "CreatedByUser" = Some (JStr "unknown")
    /\ identity_info !! "CreatedBy" = Some (JStr "unknown")
    /\ identity_info !! "CreatedAt" = Some (JStr "2024-12-25T10:30:05Z").
Proof.
  destruct (identity_fully_populated "2024-12-25T10:30:05" partial_identity_event
    {[ "userIdentity" := JObj {[ "type" := JStr "IAMUser" ]} ]}
    {[ "type" := JStr "IAMUser" ]} (JStr "unknown") eq_refl eq_refl eq_refl)
    as (identity_info & Hrun & _ & Harn & Hname & _ & _ & Hat & _).
  exists identity_info. repeat split; assumption.
Defined.

(** C5 fails as stated: without [eventTime] the timestamp is the reading of
    the clock, not ["unknown"]; and a [userIdentity] that is [null] makes the
    extraction raise. *)
Lemma identity_not_total :
  get_user_identity "2024-12-25T10:30:05" (JObj ∅)
  = Ret {[ "CreatedBy" := JStr "unknown";
           "CreatedByUser" := JStr "unknown";
           "CreatedByType" := JStr "unknown";
           "CreatedByAccountId" := JStr "unknown";
           "CreatedAt" := JStr "2024-12-25T10:30:05Z" ]}
  /\ JStr "2024-12-25T10:30:05Z" <> JStr "unknown"
  /\ get_user_identity "2024-12-25T10:30:05" (JObj null_identity_event)
     = Raise (AttributeError "'NoneType' object has no attribute 'get'").
Proof.
  split; [reflexivity|]. split; [discriminate|]. reflexivity.
Qed.

(** ** C6: the display name *)

(** C6, as the code has it. For every event whose identity has the shape
    the rule needs, the display name under [CreatedByUser] is: for an
    [IAMUser] the [userName] field, ["unknown"] without one; for an
    [AssumedRole] the user name of the session issuer when it is present and
    truthy, else the part of the ARN after its last ['/']; for [Root] the
    literal ["root"]; for any other type ["unknown"]; and the type is
    recorded as it is. *)
Theorem display_name_rule (now : string) (m d ui : dict) (name : json) :
  default (JObj ∅) (m !! "detail") = JObj d ->
  default (JObj ∅) (d !! "userIdentity") = JObj ui ->
  resolved_name ui = Some name ->
  let type := default JNull (ui !! "type") in
  (exists identity_info : dict,
     get_user_identity now (JObj m) = Ret identity_info
     /\ identity_info !! "CreatedByUser" = Some name
     /\ identity_info !! "CreatedByType" = Some (default (JStr "unknown") (ui !! "type")))
  /\ (type = JStr "IAMUser" -> name = default (JStr "unknown") (ui !! "userName"))
  /\ (type = JStr "AssumedRole" ->
      exists issuer_name : json,
        issuer_user_name ui = Some issuer_name
        /\ (truthy issuer_name = true -> name = issuer_name)
        /\ (truthy issuer_name = false ->
            exists arn : string,
              default (JStr "unknown") (ui !! "arn") = JStr arn
              /\ name = JStr (after_last "/" arn)))
  /\ (type = JStr "Root" -> name = JStr "root")
  /\ (type <> JStr "IAMUser" -> type <> JStr "AssumedRole" -> type <> JStr "Root" ->
      name = JStr "unknown").
Proof.
  intros Hd Hui Hname type. split.
  { exists (identity_of now d ui name).
    split; [by apply get_user_identity_shaped|]. split; reflexivity. }
  unfold resolved_name in Hname. fold type in Hname.
  repeat split.
  - intros Ht. rewrite Ht in Hname. simpl in Hname. congruence.
  - intros Ht. rewrite Ht in Hname. simpl in Hname.
    destruct (issuer_user_name ui) as [issuer_name|]; [|discriminate].
    exists issuer_name. split; [reflexivity|]. split.
    + intros Hn. rewrite Hn in Hname. congruence.
    + intros Hn. rewrite Hn in Hname.
      destruct (default (JStr "unknown") (ui !! "arn")) as [| | |arn| |]; try discriminate.
      exists arn. split; [reflexivity|]. congruence.
  - intros Ht. rewrite Ht in Hname. simpl in Hname. congruence.
  - intros H1 H2 H3.
    destruct (eq_str type "IAMUser") eqn:E1; [by apply eq_str_true in E1|].
    destruct (eq_str type "AssumedRole") eqn:E2; [by apply eq_str_true in E2|].
    destruct (eq_str type "Root") eqn:E3; [by apply eq_str_true in E3|].
    congruence.
Qed.

Lemma display_name_rule_witness :
  exists identity_info : dict,
    get_user_identity "2024-12-25T10:30:05" (JObj unnamed_issuer_event) = Ret identity_info
    /\ identity_info !! "CreatedByUser" = Some (JStr "session1")
    /\ identity_info !! "CreatedByType" = Some (JStr "AssumedRole").
Proof.
  exact (proj1 (display_name_rule "2024-12-25T10:30:05" unnamed_issuer_event
    {[ "eventTime" := JStr "2024-12-25T10:30:00Z"; "userIdentity" := JObj unnamed_issuer ]}
    unnamed_issuer (JStr "session1") eq_refl eq_refl eq_refl)).
Defined.

(** C6 fails as stated: the user name of the session issuer is present and
    empty, and the display name is the last segment of the ARN. *)
Lemma present_issuer_name_not_used :
  issuer_user_name unnamed_issuer = Some (JStr "")
  /\ get_user_identity "2024-12-25T10:30:05" (JObj unnamed_issuer_event)
     = Ret {[ "CreatedBy" := JStr "arn:aws:sts::123456789012:assumed-role/Admin/session1";
              "CreatedByUser" := JStr "session1";
              "CreatedByType" := JStr "AssumedRole";
              "CreatedByAccountId" := JStr "123456789012";
              "CreatedAt" := JStr "2024-12-25T10:30:00Z" ]}
  /\ JStr "session1" <> JStr "".
Proof.
  split; [reflexivity|]. split; [reflexivity|]. discriminate.
Qed.

(** ** The shape of [process_event] *)

Lemma in_strings_not_str (v : json) (l : list string) :
  (forall s, v <> JStr s) -> in_strings v l = false.
Proof.
  intros Hv. unfold in_strings. induction l as [|x l IH]; simpl; [reflexivity|].
  rewrite IH. destruct v; try reflexivity. by destruct (Hv s).
Qed.

(** Every [process_event] raises before the identity is extracted, skips
    an excluded service, or goes on to [dispatch]. *)
Lemma process_event_cases (cfg : config) (environ : gmap string string) (now : string)
    (event : json) :
  (exists e, process_event cfg environ now event = Raise e)
  \/ process_event cfg environ now event = Ret (skipped "excluded_service")
  \/ (exists (d : dict) (event_source : json),
        process_event cfg environ now event = dispatch cfg environ now event d event_source).
Proof.
  unfold process_event, dispatch. unfold_prog.
  destruct event as [| | | | |m]; simpl; try (left; eexists; reflexivity).
  destruct (default (JObj ∅) (m !! "detail")) as [| | | | |d]; simpl;
    try (left; eexists; reflexivity).
  destruct (default (JStr "") (d !! "eventSource")) as [| | |s|l|o] eqn:Hs; simpl;
    try (left; eexists; reflexivity).
  - destruct (contains "." s); simpl;
      (destruct (in_strings _ (excluded_services cfg));
       [right; left; reflexivity | right; right; exists d, (JStr s); reflexivity]).
  - destruct (existsb _ l); simpl; [left; eexists; reflexivity|].
    rewrite in_strings_not_str by discriminate.
    right; right. exists d, (JList l). reflexivity.
  - destruct (o !! "."); simpl; [left; eexists; reflexivity|].
    rewrite in_strings_not_str by discriminate.
    right; right. exists d, (JObj o). reflexivity.
Qed.

(** A [dispatch] that returns [success] returns the identity overlaid on
    the default tags. *)
Lemma dispatch_success {W : Type} (aws : services W) (w : W) (cfg : config)
    (environ : gmap string string) (now : string) (event : json) (d : dict)
    (event_source : json) (l : list fstring) (tags : dict) (en es : json) :
  returned (run aws (dispatch cfg environ now event d event_source) w)
    = inr (success l tags en es) ->
  exists user_tags : dict,
    get_user_identity now event = Ret user_tags
    /\ tags = user_tags ∪ default_tags cfg.
Proof.
  unfold dispatch.
  destruct (get_user_identity_cases now event) as [[e He]|(user_tags & Hu & _)].
  { rewrite He. simpl. discriminate. }
  rewrite Hu. simpl. rewrite run_try_except, run_bind.
  destruct (run aws (tag_created _ _ _ _ _) w) as [[e|tagged] w' cs]; simpl.
  - discriminate.
  - intros [= _ <- _ _]. by exists user_tags.
Qed.

(** ** The tags a result reports *)

(** A [process_event] that returns [success] has extracted the identity and
    reports it laid over the default tags. *)
Lemma success_reports_overlay {W : Type} (aws : services W) (w : W) (cfg : config)
    (environ : gmap string string) (now : string) (event : json)
    (l : list fstring) (tags : dict) (en es : json) :
  returned (run aws (process_event cfg environ now event) w) = inr (success l tags en es) ->
  exists user_tags : dict,
    get_user_identity now event = Ret user_tags /\ tags = user_tags ∪ default_tags cfg.
Proof.
  intros Hrun.
  destruct (process_event_cases cfg environ now event)
    as [[e He]|[He|(d & event_source & He)]]; rewrite He in Hrun; try discriminate.
  exact (dispatch_success aws w cfg environ now event d event_source l tags en es Hrun).
Qed.

(** ** C8: the same event twice *)

Lemma get_user_identity_dated (now1 now2 : string) (m d : dict) (t : json) :
  default (JObj ∅) (m !! "detail") = JObj d ->
  d !! "eventTime" = Some t ->
  get_user_identity now1 (JObj m) = get_user_identity now2 (JObj m).
Proof.
  intros Hd Ht. unfold get_user_identity. unfold_prog. simpl. rewrite Hd. simpl.
  rewrite Ht. reflexivity.
Qed.

(** C8, as the code has it. For every event that carries an [eventTime],
    the identity and the whole [process_event] are the same at any two
    readings of the clock: against services in the same state, two
    dispatches of the event make the same calls and return the same result,
    and whatever the services, two dispatches that succeed report the same
    tag set. *)
Theorem same_event_same_dispatch (cfg : config) (environ : gmap string string)
    (now1 now2 : string) (m d : dict) (t : json) :
  default (JObj ∅) (m !! "detail") = JObj d ->
  d !! "eventTime" = Some t ->
  get_user_identity now1 (JObj m) = get_user_identity now2 (JObj m)
  /\ process_event cfg environ now1 (JObj m) = process_event cfg environ now2 (JObj m)
  /\ (forall (W : Type) (aws : services W) (w : W),
        run aws (process_event cfg environ now1 (JObj m)) w
        = run aws (process_event cfg environ now2 (JObj m)) w)
  /\ (forall (W : Type) (aws : services W) (w1 w2 : W) l1 l2 tags1 tags2 en1 en2 es1 es2,
        returned (run aws (process_event cfg environ now1 (JObj m)) w1)
          = inr (success l1 tags1 en1 es1) ->
        returned (run aws (process_event cfg environ now2 (JObj m)) w2)
          = inr (success l2 tags2 en2 es2) ->
        tags1 = tags2).
Proof.
  intros Hd Ht.
  pose proof (get_user_identity_dated now1 now2 m d t Hd Ht) as Hid.
  assert (process_event cfg environ now1 (JObj m) = process_event cfg environ now2 (JObj m))
    as Hpe.
  { unfold process_event. rewrite Hid. reflexivity. }
  split; [exact Hid|]. split; [exact Hpe|]. split.
  - intros W aws w. by rewrite Hpe.
  - intros W aws w1 w2 l1 l2 tags1 tags2 en1 en2 es1 es2 H1 H2.
    apply success_reports_overlay in H1 as (u1 & Hu1 & ->).
    apply success_reports_overlay in H2 as (u2 & Hu2 & ->).
    rewrite Hid in Hu1. congruence.
Qed.

Lemma same_event_same_dispatch_witness :
  run Sim.aws (process_event (CONFIG ∅) ∅ "2024-12-25T10:30:05" (JObj launch_event))
    launch_account
  = run Sim.aws (process_event (CONFIG ∅) ∅ "2025-01-01T00:00:00" (JObj launch_event))
      launch_account.
Proof.
  refine (proj1 (proj2 (proj2 (same_event_same_dispatch (CONFIG ∅) ∅
    "2024-12-25T10:30:05" "2025-01-01T00:00:00" launch_event
    {[ "eventSource" := JStr "ec2.amazonaws.com";
       "eventName" := JStr "RunInstances";
       "awsRegion" := JStr "us-east-1";
       "eventTime" := JStr "2024-12-25T10:30:00Z";
       "userIdentity" := alice;
       "responseElements" := JObj {[ "instancesSet" := JObj {[
          "items" := JList [JObj {[ "instanceId" := JStr "i-100" ]}] ]} ]} ]}
    (JStr "2024-12-25T10:30:00Z") _ _))) _ Sim.aws launch_account).
  - reflexivity.
  - reflexivity.
Defined.

(** C8 fails as stated: an event without [eventTime], dispatched at two
    readings of the clock, gets two tag sets. *)
Lemma same_event_other_tags :
  process_event (CONFIG ∅) ∅ "2024-12-25T10:30:05" (JObj undated_event)
  = Ret (success [] (alice_tags_at "2024-12-25T10:30:05Z")
           (JStr "CreateTopic") (JStr "sns.amazonaws.com"))
  /\ process_event (CONFIG ∅) ∅ "2024-12-25T10:30:06" (JObj undated_event)
     = Ret (success [] (alice_tags_at "2024-12-25T10:30:06Z")
              (JStr "CreateTopic") (JStr "sns.amazonaws.com"))
  /\ alice_tags_at "2024-12-25T10:30:05Z" <> alice_tags_at "2024-12-25T10:30:06Z".
Proof.
  split; [vm_compute; reflexivity|]. split; [vm_compute; reflexivity|].
  intros H. apply (f_equal (fun t : dict => t !! "CreatedAt")) in H.
  vm_compute in H. discriminate.
Qed.

(** ** C1 and C10: a launch of several instances *)

Lemma truthy_dict (o : dict) (k : string) (v : json) :
  o !! k = Some v -> truthy (JObj o) = true.
Proof.
  intros Hk. simpl. destruct (map_to_list o) eqn:E; [|reflexivity].
  apply map_to_list_empty_iff in E. subst o. by rewrite lookup_empty in Hk.
Qed.

(** The loop over instances the services tag one after the other. *)
Lemma run_for_instance_tagged {W : Type} (aws : services W) (region : json) (tags : dict)
    (instances : list json) (ids : list json) (rest : list json) (acc : list fstring)
    (w w1 : W) :
  Forall2 has_id instances ids ->
  tagged_all aws region tags ids w = Some w1 ->
  run aws (for_instance (instances ++ rest) tags region acc) w =
  let o := run aws (for_instance rest tags region (acc ++ map (FStr "ec2:instance:") ids)) w1 in
  Outcome (returned o) (world o) (map (create_tags region tags) ids ++ calls o).
Proof.
  intros Hids. revert acc w.
  induction Hids as [|instance instance_id instances ids (o & -> & Hid & Htruthy) _ IH];
    intros acc w; simpl.
  - intros [= ->]. rewrite app_nil_r. by destruct (run aws _ w1).
  - intros Htag. unfold_prog. simpl. rewrite Hid. simpl. rewrite Htruthy. simpl.
    change (ec2_create_tags region [instance_id] (tag_list tags))
      with (create_tags region tags instance_id).
    destruct (aws (create_tags region tags instance_id) w) as [[e|[]] w']; [discriminate|].
    simpl. rewrite (IH _ _ Htag). simpl. by rewrite <- app_assoc.
Qed.

(** The loop at an instance whose tagging raises. *)
Lemma run_for_instance_raise {W : Type} (aws : services W) (region : json) (tags : dict)
    (instance instance_id : json) (rest : list json) (acc : list fstring)
    (e : exn) (w w' : W) :
  has_id instance instance_id ->
  aws (create_tags region tags instance_id) w = (inl e, w') ->
  run aws (for_instance (instance :: rest) tags region acc) w =
  Outcome (inl e) w' [create_tags region tags instance_id].
Proof.
  intros (o & -> & Hid & Htruthy) Hraise. simpl. unfold_prog. simpl.
  rewrite Hid. simpl. rewrite Htruthy. simpl.
  change (ec2_create_tags region [instance_id] (tag_list tags))
    with (create_tags region tags instance_id).
  rewrite Hraise. simpl. unfold except_ClientError. by destruct (is_ClientError e).
Qed.

Section Launch.

(** A launch event of [ec2.amazonaws.com] whose instances are [pre], then
    [bad], then [post]; services that tag the instances of [pre] and raise
    [e] on the one of [bad]. *)
Context {W : Type} (aws : services W) (cfg : config) (environ : gmap string string)
  (now : string) (m d re iset : dict) (pre post : list json) (bad : json)
  (ids : list json) (id_b : json) (user_tags : dict) (e : exn) (w w1 w2 : W).

Let all_tags : dict := user_tags ∪ default_tags cfg.
Let region : json :=
  default (JStr (default "us-east-1" (environ !! "AWS_REGION"))) (d !! "awsRegion").

Hypothesis Hdetail : m !! "detail" = Some (JObj d).
Hypothesis Hsource : d !! "eventSource" = Some (JStr "ec2.amazonaws.com").
Hypothesis Hname : d !! "eventName" = Some (JStr "RunInstances").
Hypothesis Hresponse : d !! "responseElements" = Some (JObj re).
Hypothesis Hset : re !! "instancesSet" = Some (JObj iset).
Hypothesis Hitems : iset !! "items" = Some (JList (pre ++ bad :: post)).
Hypothesis Hservice : "ec2" ∉ excluded_services cfg.
Hypothesis Hidentity : get_user_identity now (JObj m) = Ret user_tags.
Hypothesis Hpre : Forall2 has_id pre ids.
Hypothesis Hbad : has_id bad id_b.
Hypothesis Htagged : tagged_all aws region all_tags ids w = Some w1.
Hypothesis Hraise : aws (create_tags region all_tags id_b) w1 = (inl e, w2).

Lemma run_launch_raise :
  run aws (process_event cfg environ now (JObj m)) w =
  Outcome (inr (error (str e) (JStr "RunInstances") (JStr "ec2.amazonaws.com")))
          w2 (map (create_tags region all_tags) (ids ++ [id_b])).
Proof using All.
  rewrite (process_event_head cfg environ now m d "ec2.amazonaws.com")
    by (by rewrite ?Hdetail, ?Hsource).
  change (service_token "ec2.amazonaws.com") with "ec2".
  rewrite (not_in_strings _ _ Hservice).
  rewrite (dispatch_identity cfg environ now (JObj m) d _ user_tags Hidentity).
  rewrite Hname. simpl (default (JStr "") (Some _)).
  fold all_tags. fold region.
  rewrite run_try_except, run_bind.
  assert (run aws (tag_created (JObj d) (JStr "RunInstances") (JStr "ec2.amazonaws.com")
                     all_tags region) w
          = Outcome (inl e) w2 (map (create_tags region all_tags) (ids ++ [id_b]))) as ->.
  { unfold tag_created. unfold_prog. simpl. rewrite Hresponse. simpl.
    pose proof (truthy_dict re _ _ Hset) as Htruthy. simpl in Htruthy. rewrite Htruthy.
    rewrite Hset. simpl. rewrite Hitems. simpl.
    rewrite (run_for_instance_tagged aws region all_tags pre ids (bad :: post) [] w w1
               Hpre Htagged).
    rewrite (run_for_instance_raise aws region all_tags bad id_b post _ e w1 w2 Hbad Hraise).
    simpl. by rewrite map_app. }
  simpl. by rewrite app_nil_r.
Qed.

(** C1, as the code has it. In a launch of several instances, a tagging
    call that raises stops the dispatch: the instances before it have been
    attempted, in order, the failing one is the last call made, no sibling
    after it is attempted, and the result has status [error]. *)
Theorem failure_stops_siblings :
  let o := run aws (process_event cfg environ now (JObj m)) w in
  calls o = map (create_tags region all_tags) ids ++ [create_tags region all_tags id_b]
  /\ (exists r : result, returned o = inr r /\ status r = "error")
  /\ (forall instance_id : json,
        instance_id ∉ ids -> instance_id <> id_b ->
        create_tags region all_tags instance_id ∉ calls o).
Proof using All.
  simpl. rewrite run_launch_raise. simpl. rewrite map_app. simpl.
  split; [reflexivity|]. split; [by eexists|].
  intros instance_id Hids Hb Hin.
  apply elem_of_app in Hin as [Hin|Hin].
  - apply list_elem_of_fmap in Hin as (x & Heq & Hx).
    unfold create_tags in Heq. by injection Heq as ->.
  - apply list_elem_of_singleton in Hin. unfold create_tags in Hin. by injection Hin as ->.
Qed.

(** C10. When a tagging call raises partway through a launch of several
    instances, [process_event] returns an error result whose only keys are
    the status, the error string, the event name and the event source; the
    services are left as the failing call left them after the instances
    before it were tagged, no call is made to undo a tag, and the result
    does not name the instances that were tagged. *)
Theorem partial_tags_unreported :
  let o := run aws (process_event cfg environ now (JObj m)) w in
  let r := error (str e) (JStr "RunInstances") (JStr "ec2.amazonaws.com") in
  returned o = inr r
  /\ keys r = ["status"; "error"; "event_name"; "event_source"]
  /\ ("tagged_resources" ∉ keys r)
  /\ world o = w2
  /\ calls o = map (create_tags region all_tags) (ids ++ [id_b]).
Proof using All.
  simpl. rewrite run_launch_raise. simpl.
  repeat split; try reflexivity; try assumption.
  intros Hin. repeat (apply elem_of_cons in Hin as [Hin|Hin]; [discriminate|]).
  by apply elem_of_nil in Hin.
Qed.

End Launch.

Lemma failure_stops_siblings_witness :
  calls (run Sim.aws (process_event (CONFIG ∅) ∅ "2024-12-25T10:30:05"
                        (JObj three_launch_event)) three_account)
  = [create_tags (JStr "us-east-1") alice_tags (JStr "i-1");
     create_tags (JStr "us-east-1") alice_tags (JStr "i-2")].
Proof.
  refine (proj1 (failure_stops_siblings Sim.aws (CONFIG ∅) ∅ "2024-12-25T10:30:05"
    three_launch_event three_launch_detail {[ "instancesSet" := JObj three_instances ]}
    three_instances [instance "i-1"] [instance "i-3"] (instance "i-2")
    [JStr "i-1"] (JStr "i-2") alice_identity unauthorized
    three_account three_account_after three_account_after
    _ _ _ _ _ _ _ _ _ _ _ _)).
  - reflexivity.
  - reflexivity.
  - reflexivity.
  - reflexivity.
  - reflexivity.
  - reflexivity.
  - vm_compute. intros H. do 2 (apply elem_of_cons in H as [H|H]; [discriminate|]).
    by apply elem_of_nil in H.
  - vm_compute. reflexivity.
  - constructor; [|constructor].
    eexists. split; [reflexivity|]. split; reflexivity.
  - eexists. split; [reflexivity|]. split; reflexivity.
  - vm_compute. reflexivity.
  - vm_compute. reflexivity.
Defined.

(** C1 fails as stated: of three instances the second cannot be tagged; the
    third is never attempted, and the result is a dispatch-level error that
    lists no resource. *)
Lemma sibling_not_attempted :
  run Sim.aws (process_event (CONFIG ∅) ∅ "2024-12-25T10:30:05" (JObj three_launch_event))
    three_account
  = Outcome (inr (error (str unauthorized) (JStr "RunInstances") (JStr "ec2.amazonaws.com")))
      three_account_after
      [create_tags (JStr "us-east-1") alice_tags (JStr "i-1");
       create_tags (JStr "us-east-1") alice_tags (JStr "i-2")]
  /\ Sim.tags_of three_account_after !! "i-3" = Some ∅
  /\ status (error (str unauthorized) (JStr "RunInstances") (JStr "ec2.amazonaws.com"))
     <> "success".
Proof.
  split; [vm_compute; reflexivity|]. split; [reflexivity|]. discriminate.
Qed.

Lemma partial_tags_unreported_witness :
  returned (run Sim.aws (process_event (CONFIG ∅) ∅ "2024-12-25T10:30:05"
                           (JObj three_launch_event)) three_account)
  = inr (error (str unauthorized) (JStr "RunInstances") (JStr "ec2.amazonaws.com"))
  /\ Sim.tags_of (world (run Sim.aws (process_event (CONFIG ∅) ∅ "2024-12-25T10:30:05"
                                        (JObj three_launch_event)) three_account)) !! "i-1"
     = Some alice_string_tags.
Proof.
  destruct (partial_tags_unreported Sim.aws (CONFIG ∅) ∅ "2024-12-25T10:30:05"
    three_launch_event three_launch_detail {[ "instancesSet" := JObj three_instances ]}
    three_instances [instance "i-1"] [instance "i-3"] (instance "i-2")
    [JStr "i-1"] (JStr "i-2") alice_identity unauthorized
    three_account three_account_after three_account_after) as (Hr & _ & _ & Hw & _).
  - reflexivity.
  - reflexivity.
  - reflexivity.
  - reflexivity.
  - reflexivity.
  - reflexivity.
  - vm_compute. intros H. do 2 (apply elem_of_cons in H as [H|H]; [discriminate|]).
    by apply elem_of_nil in H.
  - vm_compute. reflexivity.
  - constructor; [|constructor].
    eexists. split; [reflexivity|]. split; reflexivity.
  - eexists. split; [reflexivity|]. split; reflexivity.
  - vm_compute. reflexivity.
  - vm_compute. reflexivity.
  - split; [exact Hr|]. rewrite Hw. reflexivity.
Defined.

(** ** C4: the tags of a bucket *)

Lemma dict_of_tag_set_acc (tag_set : list (string * string)) (acc : dict) :
  fold_left (fun d tag => <[tag.1 := JStr tag.2]> d) tag_set acc
  = (JStr <$> list_to_map (reverse tag_set)) ∪ acc.
Proof.
  revert acc. induction tag_set as [|[k v] tag_set IH]; intros acc; simpl.
  - by rewrite fmap_empty, (left_id_L ∅ (∪)).
  - rewrite IH, reverse_cons, list_to_map_app, map_fmap_union. simpl.
    rewrite insert_empty, map_fmap_singleton, <- (assoc_L (∪)).
    by rewrite <- insert_union_singleton_l.
Qed.

(** The dictionary read back from the tags a bucket holds. *)
Lemma dict_of_tag_set_to_list (old : gmap string string) :
  dict_of_tag_set (map_to_list old) = JStr <$> old.
Proof.
  unfold dict_of_tag_set. rewrite dict_of_tag_set_acc, (right_id_L ∅ (∪)). f_equal.
  rewrite <- (list_to_map_to_list old) at 2.
  symmetry. apply list_to_map_proper.
  - apply NoDup_fst_map_to_list.
  - symmetry. apply reverse_Permutation.
Qed.

Lemma string_tags_list_to_map (ts : list (string * json)) (m : gmap string string) :
  Sim.string_tags ts = Some m -> (JStr <$> m : dict) = list_to_map ts.
Proof.
  revert m. induction ts as [|[k v] ts IH]; intros m; simpl.
  - intros [= <-]. by rewrite fmap_empty.
  - destruct v; try discriminate.
    destruct (Sim.string_tags ts) as [m'|]; simpl; [|discriminate].
    intros [= <-]. by rewrite fmap_insert, (IH m').
Qed.

Lemma string_tags_is_Some (ts : list (string * json)) :
  Forall (fun kv => exists s, kv.2 = JStr s) ts -> is_Some (Sim.string_tags ts).
Proof.
  induction 1 as [|[k v] ts [s Hs] _ [m Hm]]; simpl; [by eexists|].
  simpl in Hs. subst v. rewrite Hm. by eexists.
Qed.

(** The tags of a dictionary of strings, as a service takes them. *)
Lemma string_tags_tag_list (new : gmap string string) :
  Sim.string_tags (tag_list (JStr <$> new)) = Some new.
Proof.
  unfold tag_list.
  destruct (string_tags_is_Some (map_to_list (JStr <$> new : dict))) as [m Hm].
  { apply Forall_forall. intros [k v] Hkv. apply elem_of_map_to_list in Hkv.
    rewrite lookup_fmap in Hkv. destruct (new !! k) as [s|]; [|discriminate].
    injection Hkv as <-. by exists s. }
  rewrite Hm. f_equal.
  apply string_tags_list_to_map in Hm. rewrite list_to_map_to_list in Hm.
  apply (map_fmap_inj JStr); [|exact Hm]. by intros ?? [= ->].
Qed.

(** [tag_s3_bucket] against any services: it reads the tags of the bucket,
    takes [NoSuchTagSet] for no tags, and writes the new tags laid over the
    ones it read. *)
Lemma run_tag_s3_bucket {W : Type} (aws : services W) (bucket_name : json) (tags : dict)
    (region : json) (w w1 w2 : W) (r : exn + option (list (string * string)))
    (existing_tags : dict) :
  aws (s3_get_bucket_tagging region bucket_name) w = (r, w1) ->
  (exists tag_set, r = inr tag_set /\ existing_tags = dict_of_tag_set (default [] tag_set))
  \/ (exists text, r = inl (ClientError "NoSuchTagSet" text) /\ existing_tags = ∅) ->
  aws (s3_put_bucket_tagging region bucket_name (tag_list (update existing_tags tags))) w1
    = (inr (), w2) ->
  run aws (tag_s3_bucket bucket_name tags region) w =
  Outcome (inr ()) w2
    [s3_get_bucket_tagging region bucket_name;
     s3_put_bucket_tagging region bucket_name (tag_list (update existing_tags tags))].
Proof.
  intros Hget Hread Hput. unfold tag_s3_bucket. unfold_prog. simpl. rewrite Hget. simpl.
  destruct Hread as [(tag_set & -> & ->)|(text & -> & ->)]; simpl; rewrite Hput; reflexivity.
Qed.

Lemma sim_get_bucket_tagging (w : Sim.cloud) (bucket : string) (region : json)
    (old : gmap string string) :
  Sim.tags_of w !! bucket = Some old ->
  Sim.faults w !! ("GetBucketTagging:" +:+ bucket) = None ->
  exists r,
    Sim.aws (s3_get_bucket_tagging region (JStr bucket)) w = (r, w)
    /\ ((exists tag_set, r = inr tag_set
           /\ (JStr <$> old : dict) = dict_of_tag_set (default [] tag_set))
        \/ (exists text, r = inl (ClientError "NoSuchTagSet" text)
              /\ (JStr <$> old : dict) = ∅)).
Proof.
  intros Hold Hfault. unfold Sim.aws. simpl.
  change ("GetBucketTagging" +:+ ":" +:+ bucket) with ("GetBucketTagging:" +:+ bucket).
  rewrite Hfault. simpl.
  unfold Sim.get_tags. rewrite Hold. destruct (decide (old = ∅)) as [->|Hne].
  - eexists. split; [reflexivity|]. right. eexists. split; [reflexivity|].
    by rewrite fmap_empty.
  - eexists. split; [reflexivity|]. left. eexists. split; [reflexivity|].
    simpl. by rewrite dict_of_tag_set_to_list.
Qed.

Lemma sim_put_bucket_tagging (w : Sim.cloud) (bucket : string) (region : json)
    (old new : gmap string string) :
  Sim.tags_of w !! bucket = Some old ->
  Sim.faults w !! ("PutBucketTagging:" +:+ bucket) = None ->
  Sim.aws (s3_put_bucket_tagging region (JStr bucket) (tag_list (JStr <$> new))) w
  = (inr (), Sim.set_tags bucket new w).
Proof.
  intros Hold Hfault. unfold Sim.aws. simpl.
  change ("PutBucketTagging" +:+ ":" +:+ bucket) with ("PutBucketTagging:" +:+ bucket).
  rewrite Hfault. simpl.
  unfold Sim.put_tags. by rewrite string_tags_tag_list, Hold.
Qed.

(** C4. [tag_s3_bucket] reads, merges and writes: against an account that
    holds the bucket and answers both calls, it first reads the tags of the
    bucket, taking the answer [NoSuchTagSet] of a bucket without tags for no
    tags, then writes the new tags laid over the ones read. The bucket ends
    with the union of its old tags and the new ones, a new value replacing an
    old one of the same key; tagging a second time with the same tags leaves
    what the first left; and a bucket that had no tags ends with exactly the
    new ones. *)
Theorem bucket_read_merge_write (w : Sim.cloud) (bucket : string) (region : json)
    (old new : gmap string string) :
  Sim.tags_of w !! bucket = Some old ->
  Sim.faults w !! ("GetBucketTagging:" +:+ bucket) = None ->
  Sim.faults w !! ("PutBucketTagging:" +:+ bucket) = None ->
  let tags : dict := JStr <$> new in
  let once := run Sim.aws (tag_s3_bucket (JStr bucket) tags region) w in
  let twice := run Sim.aws (tag_s3_bucket (JStr bucket) tags region) (world once) in
  returned once = inr ()
  /\ calls once
     = [s3_get_bucket_tagging region (JStr bucket);
        s3_put_bucket_tagging region (JStr bucket) (tag_list (update (JStr <$> old) tags))]
  /\ Sim.tags_of (world once) !! bucket = Some (new ∪ old)
  /\ (forall k, (new ∪ old) !! k = match new !! k with Some v => Some v | None => old !! k end)
  /\ returned twice = inr ()
  /\ world twice = world once
  /\ (old = ∅ -> Sim.tags_of (world once) !! bucket = Some new).
Proof.
  intros Hold Hget Hput tags once twice.
  assert (forall (w0 : Sim.cloud) (old0 : gmap string string),
    Sim.tags_of w0 !! bucket = Some old0 -> Sim.faults w0 = Sim.faults w ->
    run Sim.aws (tag_s3_bucket (JStr bucket) tags region) w0
    = Outcome (inr ()) (Sim.set_tags bucket (new ∪ old0) w0)
        [s3_get_bucket_tagging region (JStr bucket);
         s3_put_bucket_tagging region (JStr bucket) (tag_list (update (JStr <$> old0) tags))])
    as Hrun.
  { intros w0 old0 Hold0 Hfaults.
    destruct (sim_get_bucket_tagging w0 bucket region old0 Hold0) as (r & Hr & Hread);
      [by rewrite Hfaults|].
    apply (run_tag_s3_bucket Sim.aws (JStr bucket) tags region w0 w0 _ r (JStr <$> old0) Hr Hread).
    unfold update, tags. rewrite <- map_fmap_union.
    apply (sim_put_bucket_tagging w0 bucket region old0 (new ∪ old0) Hold0).
    by rewrite Hfaults. }
  assert (once = Outcome (inr ()) (Sim.set_tags bucket (new ∪ old) w)
            [s3_get_bucket_tagging region (JStr bucket);
             s3_put_bucket_tagging region (JStr bucket) (tag_list (update (JStr <$> old) tags))])
    as Honce by (by apply Hrun).
  assert (Sim.tags_of (world once) !! bucket = Some (new ∪ old)) as Htags.
  { rewrite Honce. simpl. apply lookup_insert_eq. }
  split; [by rewrite Honce|]. split; [by rewrite Honce|]. split; [exact Htags|].
  split.
  { intros k. rewrite lookup_union. destruct (new !! k), (old !! k); reflexivity. }
  assert (twice = Outcome (inr ()) (Sim.set_tags bucket (new ∪ (new ∪ old)) (world once))
            [s3_get_bucket_tagging region (JStr bucket);
             s3_put_bucket_tagging region (JStr bucket)
               (tag_list (update (JStr <$> (new ∪ old)) tags))]) as Htwice.
  { apply Hrun; [exact Htags|]. by rewrite Honce. }
  split; [by rewrite Htwice|]. split.
  - rewrite Htwice, Honce. unfold Sim.set_tags. simpl.
    by rewrite (assoc_L (∪)), (idemp_L (∪)), insert_insert_eq.
  - intros ->. rewrite Htags. by rewrite (right_id_L ∅ (∪)).
Qed.

Lemma bucket_read_merge_write_witness :
  Sim.tags_of (world (run Sim.aws
    (tag_s3_bucket (JStr "demo-bucket") (JStr <$> alice_string_tags) (JStr "us-east-1"))
    bucket_account)) !! "demo-bucket"
  = Some (<["Owner" := "bob"]> alice_string_tags).
Proof.
  refine (eq_trans (proj1 (proj2 (proj2 (bucket_read_merge_write bucket_account "demo-bucket"
    (JStr "us-east-1") {[ "Owner" := "bob"; "CreatedByUser" := "carol" ]}
    alice_string_tags _ _ _)))) _).
  - reflexivity.
  - reflexivity.
  - reflexivity.
  - vm_compute. reflexivity.
Defined.

(** ** C9: the name of a function is resolved before it is tagged *)

Section Function.

(** The creation event of a function whose [functionName] is the short
    name [name]. *)
Context {W : Type} (aws : services W) (cfg : config) (environ : gmap string string)
  (now : string) (m d re : dict) (name : string) (user_tags : dict) (w : W).

Let all_tags : dict := user_tags ∪ default_tags cfg.
Let region : json :=
  default (JStr (default "us-east-1" (environ !! "AWS_REGION"))) (d !! "awsRegion").
Let event_name : json := JStr "CreateFunction20150331".
Let event_source : json := JStr "lambda.amazonaws.com".
Let lookup : api_call := lambda_get_function region (JStr name).

Hypothesis Hdetail : m !! "detail" = Some (JObj d).
Hypothesis Hsource : d !! "eventSource" = Some event_source.
Hypothesis Hname : d !! "eventName" = Some event_name.
Hypothesis Hresponse : d !! "responseElements" = Some (JObj re).
Hypothesis Hfunction : re !! "functionName" = Some (JStr name).
Hypothesis Hnonempty : name <> "".
Hypothesis Hshort : startswith name "arn:" = false.
Hypothesis Hservice : "lambda" ∉ excluded_services cfg.
Hypothesis Hidentity : get_user_identity now (JObj m) = Ret user_tags.

(** The run of [process_event] on such an event, by what the services
    answer. *)
Lemma run_function :
  run aws (process_event cfg environ now (JObj m)) w =
  match aws lookup w with
  | (inl e, w1) => Outcome (inr (error (str e) event_name event_source)) w1 [lookup]
  | (inr FunctionArn, w1) =>
      let tagging := lambda_tag_resource region (JStr FunctionArn) all_tags in
      match aws tagging w1 with
      | (inl e, w2) =>
          Outcome (inr (error (str e) event_name event_source)) w2 [lookup; tagging]
      | (inr _, w2) =>
          Outcome (inr (success [FStr "lambda:function:" (JStr name)] all_tags
                          event_name event_source)) w2 [lookup; tagging]
      end
  end.
Proof using All.
  rewrite (process_event_head cfg environ now m d "lambda.amazonaws.com")
    by (by rewrite ?Hdetail, ?Hsource).
  change (service_token "lambda.amazonaws.com") with "lambda".
  rewrite (not_in_strings _ _ Hservice).
  rewrite (dispatch_identity cfg environ now (JObj m) d _ user_tags Hidentity).
  rewrite Hname. simpl (default (JStr "") (Some _)).
  fold all_tags. fold region.
  unfold tag_created, event_name. unfold_prog. simpl. rewrite Hresponse. simpl.
  rewrite Hfunction. simpl.
  destruct (String.eqb name "") eqn:Hempty; [by apply String.eqb_eq in Hempty|].
  unfold tag_lambda_function. unfold_prog. simpl. rewrite Hshort. simpl. fold lookup.
  destruct (aws lookup w) as [[e|FunctionArn] w1]; simpl.
  { unfold except_ClientError. by destruct (is_ClientError e). }
  destruct (aws (lambda_tag_resource region (JStr FunctionArn) all_tags) w1)
    as [[e|[]] w2]; simpl.
  { unfold except_ClientError. by destruct (is_ClientError e). }
  reflexivity.
Qed.

(** C9, as the code has it. For a function given by a short name that does
    not start with [arn:], the first call is the lookup of the function,
    and the tagging call, made only when the lookup answers, names the ARN
    the lookup answered. A lookup that raises and a tagging call that raises
    are both reported as a dispatch-level error whose error string is the
    text of the exception raised: the result tells them apart by that text
    alone. *)
Theorem lookup_before_tagging :
  let o := run aws (process_event cfg environ now (JObj m)) w in
  head (calls o) = Some lookup
  /\ (forall (e : exn) (w1 : W),
        aws lookup w = (inl e, w1) ->
        o = Outcome (inr (error (str e) event_name event_source)) w1 [lookup])
  /\ (forall (FunctionArn : string) (w1 : W),
        aws lookup w = (inr FunctionArn, w1) ->
        let tagging := lambda_tag_resource region (JStr FunctionArn) all_tags in
        calls o = [lookup; tagging]
        /\ (forall (e : exn) (w2 : W),
              aws tagging w1 = (inl e, w2) ->
              o = Outcome (inr (error (str e) event_name event_source)) w2
                    [lookup; tagging])
        /\ (forall w2 : W,
              aws tagging w1 = (inr (), w2) ->
              o = Outcome (inr (success [FStr "lambda:function:" (JStr name)] all_tags
                                  event_name event_source)) w2 [lookup; tagging])).
Proof using All.
  simpl. rewrite run_function. split; [|split].
  - destruct (aws lookup w) as [[e|FunctionArn] w1]; [reflexivity|]. simpl.
    by destruct (aws (lambda_tag_resource region (JStr FunctionArn) all_tags) w1)
      as [[e|[]] w2].
  - intros e w1 ->. reflexivity.
  - intros FunctionArn w1 ->. simpl. split; [|split].
    + by destruct (aws (lambda_tag_resource region (JStr FunctionArn) all_tags) w1)
        as [[e|[]] w2].
    + intros e w2 ->. reflexivity.
    + intros w2 ->. reflexivity.
Qed.

End Function.

Lemma lookup_before_tagging_witness :
  run Sim.aws (process_event (CONFIG ∅) ∅ "2024-12-25T10:30:05" (JObj create_function_event))
    (function_account "GetFunction:resize")
  = Outcome (inr (error "Unable to locate credentials"
                    (JStr "CreateFunction20150331") (JStr "lambda.amazonaws.com")))
      (function_account "GetFunction:resize")
      [lambda_get_function (JStr "us-east-1") (JStr "resize")].
Proof.
  refine (proj1 (proj2 (lookup_before_tagging Sim.aws (CONFIG ∅) ∅ "2024-12-25T10:30:05"
    create_function_event create_function_detail {[ "functionName" := JStr "resize" ]}
    "resize" alice_identity (function_account "GetFunction:resize")
    _ _ _ _ _ _ _ _ _)) no_credentials (function_account "GetFunction:resize") _).
  - reflexivity.
  - reflexivity.
  - reflexivity.
  - reflexivity.
  - reflexivity.
  - discriminate.
  - reflexivity.
  - vm_compute. intros H. do 2 (apply elem_of_cons in H as [H|H]; [discriminate|]).
    by apply elem_of_nil in H.
  - vm_compute. reflexivity.
  - vm_compute. reflexivity.
Defined.

(** C9 fails as stated: a lookup that fails and a tagging call that fails
    with the same exception give the same dispatch result. *)
Lemma failures_reported_alike :
  calls (dispatch_function (function_account "GetFunction:resize"))
  = [lambda_get_function (JStr "us-east-1") (JStr "resize")]
  /\ calls (dispatch_function (function_account ("TagResource:" +:+ resize_arn)))
     = [lambda_get_function (JStr "us-east-1") (JStr "resize");
        lambda_tag_resource (JStr "us-east-1") (JStr resize_arn) alice_tags]
  /\ returned (dispatch_function (function_account "GetFunction:resize"))
     = inr (error "Unable to locate credentials"
              (JStr "CreateFunction20150331") (JStr "lambda.amazonaws.com"))
  /\ returned (dispatch_function (function_account ("TagResource:" +:+ resize_arn)))
     = returned (dispatch_function (function_account "GetFunction:resize")).
Proof.
  repeat split; vm_compute; reflexivity.
Qed.

(** * Further properties *)

(** ** [parse_arn] *)

Lemma split_app (c : ascii) (a rest : string) :
  contains c a = false -> split c (a +:+ String c rest) = a :: split c rest.
Proof.
  induction a as [|c' a IH]; simpl.
  - intros _. by rewrite Ascii.eqb_refl.
  - destruct (Ascii.eqb c' c); simpl; [done|]. intros H. by rewrite (IH H).
Qed.

Lemma split_app_sep (c : ascii) (a rest : string) :
  contains c a = false -> split c (a +:+ String c "" +:+ rest) = a :: split c rest.
Proof. exact (split_app c a rest). Qed.

Lemma join_split (c : ascii) (s : string) :
  join (String c "") (split c s) = s.
Proof.
  induction s as [|c' s IH]; simpl; [done|].
  destruct (Ascii.eqb c' c) eqn:E.
  - apply Ascii.eqb_eq in E. subst c'.
    pose proof (split_nonempty c s). destruct (split c s) as [|w ws]; [done|].
    simpl. by rewrite <- IH.
  - pose proof (split_nonempty c s). destruct (split c s) as [|w ws]; [done|].
    rewrite <- IH. by destruct ws.
Qed.

(** X1. The fields of an ARN: when the first five fields hold no [':'],
    [parse_arn] returns the second to the fifth as partition, service, region
    and account, and everything after the fifth [':'] as the resource, with
    the colons the resource has. *)
Theorem parse_arn_fields (prefix partition service region account resource : string) :
  contains ":" prefix = false ->
  contains ":" partition = false ->
  contains ":" service = false ->
  contains ":" region = false ->
  contains ":" account = false ->
  parse_arn (prefix +:+ ":" +:+ partition +:+ ":" +:+ service +:+ ":" +:+ region
             +:+ ":" +:+ account +:+ ":" +:+ resource)
  = {[ "partition" := partition; "service" := service; "region" := region;
       "account" := account; "resource" := resource ]}.
Proof.
  intros H0 H1 H2 H3 H4. unfold parse_arn.
  rewrite (split_app_sep _ _ _ H0), (split_app_sep _ _ _ H1), (split_app_sep _ _ _ H2),
    (split_app_sep _ _ _ H3), (split_app_sep _ _ _ H4).
  pose proof (split_nonempty ":" resource) as Hne.
  pose proof (join_split ":" resource) as Hjoin.
  destruct (split ":" resource) as [|w ws]; [done|].
  unfold part_or_empty. simpl length. simpl drop. simpl nth.
  change (Nat.ltb 1 (S (S (S (S (S (S (length ws)))))))) with true.
  change (Nat.ltb 2 (S (S (S (S (S (S (length ws)))))))) with true.
  change (Nat.ltb 3 (S (S (S (S (S (S (length ws)))))))) with true.
  change (Nat.ltb 4 (S (S (S (S (S (S (length ws)))))))) with true.
  change (Nat.ltb 5 (S (S (S (S (S (S (length ws)))))))) with true.
  cbv iota. by rewrite Hjoin.
Qed.

Lemma parse_arn_fields_witness :
  parse_arn "arn:aws:lambda:us-east-1:123456789012:function:resize"
  = {[ "partition" := "aws"; "service" := "lambda"; "region" := "us-east-1";
       "account" := "123456789012"; "resource" := "function:resize" ]}.
Proof.
  exact (parse_arn_fields "arn" "aws" "lambda" "us-east-1" "123456789012" "function:resize"
           eq_refl eq_refl eq_refl eq_refl eq_refl).
Defined.

(** X2. An ARN of at least six fields is its fields put together again:
    nothing is lost between the string and the dictionary but the first
    field. *)
Theorem parse_arn_reassembles (arn : string) :
  5 < length (split ":" arn) ->
  exists prefix partition service region account resource : string,
    parse_arn arn
    = {[ "partition" := partition; "service" := service; "region" := region;
         "account" := account; "resource" := resource ]}
    /\ arn = prefix +:+ ":" +:+ partition +:+ ":" +:+ service +:+ ":" +:+ region
             +:+ ":" +:+ account +:+ ":" +:+ resource.
Proof.
  intros Hlen. unfold parse_arn. pose proof (join_split ":" arn) as Hjoin.
  destruct (split ":" arn) as [|x0 [|x1 [|x2 [|x3 [|x4 [|x5 xs]]]]]];
    simpl in Hlen; try lia.
  exists x0, x1, x2, x3, x4, (join ":" (x5 :: xs)). split; [reflexivity|].
  rewrite <- Hjoin. reflexivity.
Qed.

Lemma parse_arn_reassembles_witness :
  exists prefix partition service region account resource : string,
    parse_arn "arn:aws:iam::123456789012:user/alice"
    = {[ "partition" := partition; "service" := service; "region" := region;
         "account" := account; "resource" := resource ]}
    /\ "arn:aws:iam::123456789012:user/alice"
       = prefix +:+ ":" +:+ partition +:+ ":" +:+ service +:+ ":" +:+ region
         +:+ ":" +:+ account +:+ ":" +:+ resource.
Proof.
  apply (parse_arn_reassembles "arn:aws:iam::123456789012:user/alice").
  vm_compute. lia.
Defined.

(** ** [get_client] *)

Section ClientCache.

Context {client : Type} (boto3_client : string -> option string -> client).

(** X3. A second request under the same key is answered from the cache:
    it returns the client of the first and leaves [CLIENTS] as the first
    left it, whatever service and region it names. *)
Theorem get_client_cached (service_name service_name' : string)
    (region region' : option string) (CLIENTS : gmap string client) :
  client_key service_name' region' = client_key service_name region ->
  get_client boto3_client service_name' region'
    (get_client boto3_client service_name region CLIENTS).2
  = get_client boto3_client service_name region
      (get_client boto3_client service_name region CLIENTS).2
  /\ get_client boto3_client service_name region
       (get_client boto3_client service_name region CLIENTS).2
     = ((get_client boto3_client service_name region CLIENTS).1,
        (get_client boto3_client service_name region CLIENTS).2).
Proof.
  intros Hkey. unfold get_client. rewrite Hkey.
  destruct (CLIENTS !! client_key service_name region) as [c|] eqn:E; simpl.
  - rewrite E. done.
  - rewrite lookup_insert_eq. done.
Qed.

Lemma get_client_keeps (service_name : string) (region : option string)
    (CLIENTS : gmap string client) (k : string) (c : client) :
  CLIENTS !! k = Some c ->
  (get_client boto3_client service_name region CLIENTS).2 !! k = Some c.
Proof.
  intros Hk. unfold get_client.
  destruct (CLIENTS !! client_key service_name region) as [c'|] eqn:E; simpl; [done|].
  rewrite lookup_insert_ne; [done|]. intros <-. congruence.
Qed.

(** X4. The cache only grows: whatever requests follow, a client stays in
    [CLIENTS] under its key, never replaced and never removed. *)
Theorem clients_kept (requests : list (string * option string))
    (CLIENTS : gmap string client) (k : string) (c : client) :
  CLIENTS !! k = Some c ->
  after_requests boto3_client requests CLIENTS !! k = Some c.
Proof.
  revert CLIENTS. unfold after_requests.
  induction requests as [|[s r] requests IH]; intros CLIENTS Hk; simpl; [done|].
  apply IH. by apply get_client_keeps.
Qed.

Lemma app_inv_head_string (s a b : string) : s +:+ a = s +:+ b -> a = b.
Proof. induction s as [|c s IH]; simpl; [done|]. intros [= H]. by apply IH. Qed.

Lemma before_first_app (c : ascii) (s rest : string) :
  contains c s = false -> before_first c (s +:+ String c rest) = s.
Proof.
  induction s as [|c' s IH]; simpl.
  - intros _. by rewrite Ascii.eqb_refl.
  - destruct (Ascii.eqb c' c); simpl; [done|]. intros H. by rewrite (IH H).
Qed.

Lemma before_first_app_sep (c : ascii) (s rest : string) :
  contains c s = false -> before_first c (s +:+ String c "" +:+ rest) = s.
Proof. exact (before_first_app c s rest). Qed.

(** Keys of services whose names hold no ['_'] tell the service and the
    region apart. *)
Lemma client_key_inj (s1 s2 : string) (r1 r2 : option string) :
  contains "_" s1 = false -> contains "_" s2 = false ->
  client_key s1 r1 = client_key s2 r2 ->
  s1 = s2 /\ region_or_default r1 = region_or_default r2.
Proof.
  intros H1 H2 Hkey. unfold client_key in Hkey.
  assert (s1 = s2) as ->.
  { apply (f_equal (before_first "_")) in Hkey.
    by rewrite (before_first_app_sep "_" s1 _ H1), (before_first_app_sep "_" s2 _ H2) in Hkey. }
  split; [done|]. apply app_inv_head_string in Hkey. simpl in Hkey. by injection Hkey.
Qed.

Lemma get_client_made_for_key (service_name : string) (region : option string)
    (CLIENTS : gmap string client) :
  contains "_" service_name = false ->
  made_for_key boto3_client CLIENTS ->
  made_for_key boto3_client (get_client boto3_client service_name region CLIENTS).2.
Proof.
  intros Hs Hinv k c. unfold get_client.
  destruct (CLIENTS !! client_key service_name region) as [c'|] eqn:E; simpl.
  - apply Hinv.
  - destruct (decide (k = client_key service_name region)) as [->|Hne].
    + rewrite lookup_insert_eq. intros [= <-]. by exists service_name, region.
    + rewrite lookup_insert_ne by done. apply Hinv.
Qed.

Lemma after_requests_made_for_key (requests : list (string * option string))
    (CLIENTS : gmap string client) :
  Forall (fun request => contains "_" request.1 = false) requests ->
  made_for_key boto3_client CLIENTS ->
  made_for_key boto3_client (after_requests boto3_client requests CLIENTS).
Proof.
  intros Hreq. revert CLIENTS. unfold after_requests.
  induction Hreq as [|[s r] requests Hs _ IH]; intros CLIENTS Hinv; simpl; [done|].
  apply IH. by apply get_client_made_for_key.
Qed.

(** X5. From an empty cache and for services whose names hold no ['_'], as
    the five the tagging functions name, [get_client] returns a client made
    for the service it is asked, and for the region it is asked, but that
    the region ["default"] and no region share one client. *)
Theorem get_client_right_service (requests : list (string * option string))
    (service_name : string) (region : option string) :
  Forall (fun request => contains "_" request.1 = false) requests ->
  contains "_" service_name = false ->
  let c := (get_client boto3_client service_name region
              (after_requests boto3_client requests ∅)).1 in
  c = boto3_client service_name (Some (region_or_default region))
  \/ (region_or_default region = "default" /\ c = boto3_client service_name None).
Proof.
  intros Hreq Hs. simpl.
  assert (forall r' : option string,
    region_or_default r' = region_or_default region ->
    new_client boto3_client service_name r'
      = boto3_client service_name (Some (region_or_default region))
    \/ (region_or_default region = "default"
        /\ new_client boto3_client service_name r' = boto3_client service_name None)) as Hnew.
  { intros r' <-. unfold new_client, region_or_default.
    destruct r' as [x|]; [|by right]. destruct (String.eqb x ""); [by right|by left]. }
  pose proof (after_requests_made_for_key requests ∅ Hreq) as Hinv.
  unfold get_client.
  destruct (after_requests boto3_client requests ∅ !! client_key service_name region)
    as [c|] eqn:E; simpl.
  - destruct (Hinv ltac:(intros k c' Hk; by rewrite lookup_empty in Hk) _ _ E)
      as (s & r' & Hkey & -> & Hs').
    destruct (client_key_inj _ _ _ _ Hs Hs' Hkey) as [<- Hr]. by apply Hnew.
  - by apply Hnew.
Qed.

(** X6. The exception happens: once a client was made for the region
    ["default"], a request that names no region gets that client. *)
Theorem default_region_shares_client (service_name : string)
    (CLIENTS : gmap string client) :
  CLIENTS !! client_key service_name None = None ->
  (get_client boto3_client service_name None
     (get_client boto3_client service_name (Some "default") CLIENTS).2).1
  = boto3_client service_name (Some "default").
Proof.
  intros Hnone. unfold get_client.
  change (client_key service_name (Some "default")) with (client_key service_name None).
  rewrite Hnone. simpl. by rewrite lookup_insert_eq.
Qed.

End ClientCache.

Lemma get_client_cached_witness :
  get_client pair "ec2" (Some "") (get_client pair "ec2" None ∅).2
  = get_client pair "ec2" None (get_client pair "ec2" None ∅).2.
Proof.
  exact (proj1 (get_client_cached pair "ec2" "ec2" None (Some "") ∅ eq_refl)).
Defined.

Lemma clients_kept_witness :
  after_requests pair [("s3", Some "us-east-1"); ("ec2", None)]
    {[ "ec2_default" := ("ec2", None) ]} !! "ec2_default"
  = Some ("ec2", None).
Proof.
  apply (clients_kept pair [("s3", Some "us-east-1"); ("ec2", None)]
           {[ "ec2_default" := ("ec2", None) ]} "ec2_default" ("ec2", None)).
  reflexivity.
Defined.

Lemma get_client_right_service_witness :
  (get_client pair "ec2" (Some "us-east-1")
     (after_requests pair [("ec2", Some "eu-west-1"); ("s3", None)] ∅)).1
  = ("ec2", Some "us-east-1")
  \/ (region_or_default (Some "us-east-1") = "default"
      /\ (get_client pair "ec2" (Some "us-east-1")
            (after_requests pair [("ec2", Some "eu-west-1"); ("s3", None)] ∅)).1
         = ("ec2", None)).
Proof.
  apply (get_client_right_service pair [("ec2", Some "eu-west-1"); ("s3", None)]
           "ec2" (Some "us-east-1")).
  - repeat constructor.
  - reflexivity.
Defined.

Lemma default_region_shares_client_witness :
  (get_client pair "ec2" None (get_client pair "ec2" (Some "default") ∅).2).1
  = ("ec2", Some "default").
Proof.
  apply (default_region_shares_client pair "ec2" ∅). reflexivity.
Defined.

(** ** [lambda_handler] *)

(** A [process_event] that does not raise at once has an event and a detail
    that are dictionaries. *)
Lemma process_event_returns_dict {W : Type} (aws : services W) (w : W) (cfg : config)
    (environ : gmap string string) (now : string) (event : json) (r : result) :
  returned (run aws (process_event cfg environ now event) w) = inr r ->
  exists m d : dict, event = JObj m /\ default (JObj ∅) (m !! "detail") = JObj d.
Proof.
  unfold process_event. unfold_prog.
  destruct event as [| | | | |m]; simpl; try discriminate.
  destruct (default (JObj ∅) (m !! "detail")) as [| | | | |d] eqn:Hd; simpl; try discriminate.
  intros _. by exists m, d.
Qed.

Lemma log_result_dict (m d : dict) (r : result) :
  default (JObj ∅) (m !! "detail") = JObj d ->
  log_result (JObj m) r = Ret ().
Proof.
  intros Hd. unfold log_result. unfold_prog. simpl. rewrite Hd.
  destruct r as [reason|e en es|[|x l] tags en es]; reflexivity.
Qed.

(** The run of [lambda_handler], by the run of [process_event]. *)
Lemma run_lambda_handler {W : Type} (aws : services W) (w : W) (cfg : config)
    (environ : gmap string string) (now : string) (event context : json) :
  let o := run aws (lambda_handler cfg environ now event context) w in
  let p := run aws (process_event cfg environ now event) w in
  world o = world p
  /\ calls o = calls p
  /\ returned o
     = inr match returned p with
           | inr r => {| statusCode := 200; response_body := body_result r |}
           | inl e => {| statusCode := 500; response_body := body_error "error" (str e) |}
           end.
Proof.
  simpl. unfold lambda_handler. unfold_prog. rewrite run_try_except, run_bind.
  destruct (run aws (process_event cfg environ now event) w) as [[e|r] w' cs] eqn:Hp; simpl.
  { by rewrite app_nil_r. }
  assert (returned (run aws (process_event cfg environ now event) w) = inr r) as Hr
    by (by rewrite Hp).
  destruct (process_event_returns_dict aws w cfg environ now event r Hr)
    as (m & d & -> & Hd).
  rewrite (log_result_dict m d r Hd). simpl. by rewrite app_nil_r.
Qed.

(** X7. [lambda_handler] never raises, and asks of the services what
    [process_event] asks: when [process_event] returns a result, of whatever
    status, the response has status code 200 and the result for body; when
    [process_event] raises, the response has status code 500 and the text of
    the exception. *)
Theorem lambda_handler_response {W : Type} (aws : services W) (w : W) (cfg : config)
    (environ : gmap string string) (now : string) (event context : json) :
  let o := run aws (lambda_handler cfg environ now event context) w in
  let p := run aws (process_event cfg environ now event) w in
  world o = world p
  /\ calls o = calls p
  /\ returned o
     = inr match returned p with
           | inr r => {| statusCode := 200; response_body := body_result r |}
           | inl e => {| statusCode := 500; response_body := body_error "error" (str e) |}
           end.
Proof. exact (run_lambda_handler aws w cfg environ now event context). Qed.

Lemma dispatch_returns {W : Type} (aws : services W) (w : W) (cfg : config)
    (environ : gmap string string) (now : string) (event : json) (d : dict)
    (event_source : json) (user_tags : dict) :
  get_user_identity now event = Ret user_tags ->
  exists r : result,
    returned (run aws (dispatch cfg environ now event d event_source) w) = inr r.
Proof.
  intros Hid. rewrite (dispatch_identity cfg environ now event d event_source user_tags Hid).
  rewrite run_try_except, run_bind.
  destruct (run aws (tag_created _ _ _ _ _) w) as [[e|l] w' cs]; simpl; by eexists.
Qed.

(** X8. Once the identity is extracted, nothing makes [process_event]
    raise: whatever the event holds beside, and whatever the services answer
    or raise, it returns a result, and [lambda_handler] answers with status
    code 200, also when the result has status [error]. *)
Theorem dispatch_never_raises {W : Type} (aws : services W) (w : W) (cfg : config)
    (environ : gmap string string) (now : string) (m d : dict) (s : string)
    (user_tags : dict) (context : json) :
  default (JObj ∅) (m !! "detail") = JObj d ->
  default (JStr "") (d !! "eventSource") = JStr s ->
  get_user_identity now (JObj m) = Ret user_tags ->
  exists r : result,
    returned (run aws (process_event cfg environ now (JObj m)) w) = inr r
    /\ returned (run aws (lambda_handler cfg environ now (JObj m) context) w)
       = inr {| statusCode := 200; response_body := body_result r |}.
Proof.
  intros Hd Hs Hid.
  assert (exists r, returned (run aws (process_event cfg environ now (JObj m)) w) = inr r)
    as [r Hr].
  { rewrite (process_event_head cfg environ now m d s Hd Hs).
    destruct (in_strings _ _); [by eexists|].
    by apply (dispatch_returns aws w cfg environ now (JObj m) d (JStr s) user_tags). }
  exists r. split; [exact Hr|].
  destruct (run_lambda_handler aws w cfg environ now (JObj m) context) as (_ & _ & Hh).
  simpl in Hh. rewrite Hh. by rewrite Hr.
Qed.

Lemma dispatch_never_raises_witness :
  exists r : result,
    returned (run Sim.aws (process_event (CONFIG ∅) ∅ "2024-12-25T10:30:05"
                             (JObj three_launch_event)) three_account) = inr r
    /\ returned (run Sim.aws (lambda_handler (CONFIG ∅) ∅ "2024-12-25T10:30:05"
                                (JObj three_launch_event) JNull) three_account)
       = inr {| statusCode := 200; response_body := body_result r |}.
Proof.
  apply (dispatch_never_raises Sim.aws three_account (CONFIG ∅) ∅ "2024-12-25T10:30:05"
           three_launch_event three_launch_detail "ec2.amazonaws.com" alice_identity JNull).
  - reflexivity.
  - reflexivity.
  - vm_compute. reflexivity.
Defined.

(** ** The branches of [process_event] *)

(** The chain of [process_event] against the table of its branches that
    tag one resource: on the event of a branch, when the chained [.get]
    calls reach a value, the chain is the tagging function of the branch on
    that value, followed by the one labelled entry of [tagged_resources], if
    the value is truthy, and nothing if it is not. *)
Lemma tag_created_route (rt : route) (d : dict) (resource_id : json)
    (all_tags : dict) (aws_region : json) :
  rt ∈ routes ->
  value_at (default (JObj ∅) (d !! route_member rt)) (route_path rt) = Some resource_id ->
  tag_created (JObj d) (JStr (route_name rt)) (JStr (route_source rt)) all_tags aws_region
  = if truthy resource_id
    then bind (route_tag rt resource_id all_tags aws_region)
           (fun _ => Ret [FStr (route_label rt) resource_id])
    else Ret [].
Proof.
  intros Hrt. unfold routes in Hrt.
  repeat (apply elem_of_cons in Hrt as [->|Hrt]); [..|by apply elem_of_nil in Hrt];
    simpl; unfold tag_created; unfold_prog; simpl;
    (destruct (default (JObj ∅) (d !! _)) as [| | | | |o]; simpl; [discriminate..|]);
    try (destruct (default (JObj ∅) (o !! _)) as [| | | | |o']; simpl; [discriminate..|]);
    intros [= <-]; reflexivity.
Qed.

(** The chain on a branch whose member of the detail is no dictionary. *)
Lemma tag_created_member (rt : route) (d : dict) (v : json) (all_tags : dict)
    (aws_region : json) :
  rt ∈ routes ->
  d !! route_member rt = Some v ->
  (forall o : dict, v <> JObj o) ->
  tag_created (JObj d) (JStr (route_name rt)) (JStr (route_source rt)) all_tags aws_region
  = Raise (no_attribute v "get").
Proof.
  intros Hrt. unfold routes in Hrt.
  repeat (apply elem_of_cons in Hrt as [->|Hrt]); [..|by apply elem_of_nil in Hrt];
    simpl; intros Hv Hno; unfold tag_created; unfold_prog; simpl; rewrite Hv; simpl;
    (destruct v as [| | | | |o]; [reflexivity..|by destruct (Hno o)]).
Qed.

Section Routed.

(** The event of a branch of the table, of a service that is not excluded
    and with an identity that is extracted. *)
Context {W : Type} (aws : services W) (w : W) (cfg : config)
  (environ : gmap string string) (now : string) (m d : dict) (rt : route)
  (user_tags : dict).

Let all_tags : dict := user_tags ∪ default_tags cfg.
Let aws_region : json :=
  default (JStr (default "us-east-1" (environ !! "AWS_REGION"))) (d !! "awsRegion").
Let event_name : json := JStr (route_name rt).
Let event_source : json := JStr (route_source rt).

Hypothesis Hroute : rt ∈ routes.
Hypothesis Hdetail : m !! "detail" = Some (JObj d).
Hypothesis Hsource : d !! "eventSource" = Some event_source.
Hypothesis Hname : d !! "eventName" = Some event_name.
Hypothesis Hservice : service_token (route_source rt) ∉ excluded_services cfg.
Hypothesis Hidentity : get_user_identity now (JObj m) = Ret user_tags.

Lemma process_event_routed :
  process_event cfg environ now (JObj m) =
  try_except
    (bind (tag_created (JObj d) event_name event_source all_tags aws_region)
       (fun tagged_resources =>
          Ret (success tagged_resources all_tags event_name event_source)))
    (except_Exception (fun e => Ret (error (str e) event_name event_source))).
Proof using Hdetail Hsource Hname Hservice Hidentity.
  rewrite (process_event_head cfg environ now m d (route_source rt))
    by (by rewrite ?Hdetail, ?Hsource).
  rewrite (not_in_strings _ _ Hservice).
  rewrite (dispatch_identity cfg environ now (JObj m) d _ user_tags Hidentity).
  rewrite Hname. reflexivity.
Qed.

(** X9. The dispatch of an event that creates one resource is the run of
    the tagging function of its branch on the id the chained [.get] calls
    reach: the same calls and the same state of the services; status
    [success] with the one resource under the label of the branch when the
    function returns, status [error] with the text of the exception when it
    raises; and status [success] without resource and without call when the
    id is missing or falsy. *)
Theorem routed_dispatch (resource_id : json) :
  value_at (default (JObj ∅) (d !! route_member rt)) (route_path rt) = Some resource_id ->
  let o := run aws (process_event cfg environ now (JObj m)) w in
  let t := run aws (route_tag rt resource_id all_tags aws_region) w in
  if truthy resource_id then
    world o = world t
    /\ calls o = calls t
    /\ returned o
       = inr match returned t with
             | inr _ => success [FStr (route_label rt) resource_id] all_tags
                          event_name event_source
             | inl e => error (str e) event_name event_source
             end
  else o = Outcome (inr (success [] all_tags event_name event_source)) w [].
Proof using All.
  intros Hid. simpl. rewrite process_event_routed.
  unfold event_name, event_source.
  rewrite (tag_created_route rt d resource_id all_tags aws_region Hroute Hid).
  destruct (truthy resource_id); [|reflexivity].
  rewrite run_try_except, !run_bind.
  destruct (run aws (route_tag rt resource_id all_tags aws_region) w) as [[e|[]] w' cs];
    simpl; by rewrite ?app_nil_r.
Qed.

(** X10. When the member of the detail a branch reads is present and no
    dictionary, as the [null] the audit trail writes for the response of a
    failed call, the dispatch makes no call and has status [error] with the
    text of the [AttributeError]. *)
Theorem routed_member_not_dict (v : json) :
  d !! route_member rt = Some v ->
  (forall o : dict, v <> JObj o) ->
  process_event cfg environ now (JObj m)
  = Ret (error (str (no_attribute v "get")) event_name event_source).
Proof using Hroute Hdetail Hsource Hname Hservice Hidentity.
  intros Hv Hno. rewrite process_event_routed. unfold event_name, event_source.
  by rewrite (tag_created_member rt d v all_tags aws_region Hroute Hv Hno).
Qed.

End Routed.

Lemma routed_dispatch_witness :
  returned (run Sim.aws
    (process_event (CONFIG ∅) ∅ "2024-12-25T10:30:05"
       (JObj (volume_event (JObj {[ "volumeId" := JStr "vol-1" ]})))) volume_account)
  = inr (success [FStr "ec2:volume:" (JStr "vol-1")] alice_tags
           (JStr "CreateVolume") (JStr "ec2.amazonaws.com")).
Proof.
  assert (volume_route ∈ routes) as Hroute by apply list_elem_of_here.
  assert (service_token "ec2.amazonaws.com" ∉ excluded_services (CONFIG ∅)) as Hservice.
  { vm_compute. intros H. do 2 (apply elem_of_cons in H as [H|H]; [discriminate|]).
    by apply elem_of_nil in H. }
  assert (get_user_identity "2024-12-25T10:30:05"
            (JObj (volume_event (JObj {[ "volumeId" := JStr "vol-1" ]})))
          = Ret alice_identity) as Hidentity by (vm_compute; reflexivity).
  assert (value_at
            (default (JObj ∅)
               (volume_detail (JObj {[ "volumeId" := JStr "vol-1" ]})
                !! route_member volume_route))
            (route_path volume_route) = Some (JStr "vol-1")) as Hvalue
    by (vm_compute; reflexivity).
  destruct (routed_dispatch Sim.aws volume_account (CONFIG ∅) ∅ "2024-12-25T10:30:05"
    (volume_event (JObj {[ "volumeId" := JStr "vol-1" ]}))
    (volume_detail (JObj {[ "volumeId" := JStr "vol-1" ]}))
    volume_route alice_identity Hroute eq_refl eq_refl eq_refl Hservice Hidentity
    (JStr "vol-1") Hvalue) as (_ & _ & Hreturned).
  rewrite Hreturned. vm_compute. reflexivity.
Defined.

Lemma routed_member_not_dict_witness :
  process_event (CONFIG ∅) ∅ "2024-12-25T10:30:05" (JObj (volume_event JNull))
  = Ret (error "'NoneType' object has no attribute 'get'"
           (JStr "CreateVolume") (JStr "ec2.amazonaws.com")).
Proof.
  assert (volume_route ∈ routes) as Hroute by apply list_elem_of_here.
  assert (service_token "ec2.amazonaws.com" ∉ excluded_services (CONFIG ∅)) as Hservice.
  { vm_compute. intros H. do 2 (apply elem_of_cons in H as [H|H]; [discriminate|]).
    by apply elem_of_nil in H. }
  assert (get_user_identity "2024-12-25T10:30:05" (JObj (volume_event JNull))
          = Ret alice_identity) as Hidentity by (vm_compute; reflexivity).
  apply (routed_member_not_dict (CONFIG ∅) ∅ "2024-12-25T10:30:05"
    (volume_event JNull) (volume_detail JNull) volume_route alice_identity
    Hroute eq_refl eq_refl eq_refl Hservice Hidentity JNull eq_refl).
  discriminate.
Defined.

(** X11. A launch is the one branch that tests the response before it
    reads it: when [responseElements] is absent, [null] or empty,
    [process_event] makes no call and has status [success] without
    resource. *)
Theorem launch_without_response (cfg : config) (environ : gmap string string)
    (now : string) (m d : dict) (user_tags : dict) :
  m !! "detail" = Some (JObj d) ->
  d !! "eventSource" = Some (JStr "ec2.amazonaws.com") ->
  d !! "eventName" = Some (JStr "RunInstances") ->
  "ec2" ∉ excluded_services cfg ->
  get_user_identity now (JObj m) = Ret user_tags ->
  truthy (default (JObj ∅) (d !! "responseElements")) = false ->
  process_event cfg environ now (JObj m)
  = Ret (success [] (user_tags ∪ default_tags cfg)
           (JStr "RunInstances") (JStr "ec2.amazonaws.com")).
Proof.
  intros Hd Hs Hn Hex Hid Hfalsy.
  rewrite (process_event_head cfg environ now m d "ec2.amazonaws.com")
    by (by rewrite ?Hd, ?Hs).
  change (service_token "ec2.amazonaws.com") with "ec2".
  rewrite (not_in_strings _ _ Hex).
  rewrite (dispatch_identity cfg environ now (JObj m) d _ user_tags Hid).
  rewrite Hn. unfold tag_created. unfold_prog. simpl.
  destruct (default (JObj ∅) (d !! "responseElements")) as [| | | | |o]; simpl;
    try discriminate; simpl in Hfalsy; by rewrite ?Hfalsy.
Qed.

Lemma launch_without_response_witness :
  process_event (CONFIG ∅) ∅ "2024-12-25T10:30:05" (JObj failed_launch_event)
  = Ret (success [] alice_tags (JStr "RunInstances") (JStr "ec2.amazonaws.com")).
Proof.
  refine (launch_without_response (CONFIG ∅) ∅ "2024-12-25T10:30:05" failed_launch_event
    {[ "eventSource" := JStr "ec2.amazonaws.com";
       "eventName" := JStr "RunInstances";
       "awsRegion" := JStr "us-east-1";
       "eventTime" := JStr "2024-12-25T10:30:00Z";
       "userIdentity" := alice;
       "responseElements" := JNull ]} alice_identity _ _ _ _ _ _).
  - reflexivity.
  - reflexivity.
  - reflexivity.
  - vm_compute. intros H. do 2 (apply elem_of_cons in H as [H|H]; [discriminate|]).
    by apply elem_of_nil in H.
  - vm_compute. reflexivity.
  - reflexivity.
Defined.

(** ** The tagging functions *)

(** X12. [tag_s3_bucket] writes only over what it could read: when the
    reading of the tags raises anything but a [ClientError] of code
    [NoSuchTagSet], the function raises that exception and makes no other
    call, so the tags of the bucket are not replaced. *)
Theorem tag_s3_bucket_read_fails {W : Type} (aws : services W) (bucket_name : json)
    (tags : dict) (region : json) (w w1 : W) (e : exn) :
  aws (s3_get_bucket_tagging region bucket_name) w = (inl e, w1) ->
  is_ClientError e && String.eqb (error_code e) "NoSuchTagSet" = false ->
  run aws (tag_s3_bucket bucket_name tags region) w
  = Outcome (inl e) w1 [s3_get_bucket_tagging region bucket_name].
Proof.
  intros Hget Hcode. unfold tag_s3_bucket. unfold_prog. simpl. rewrite Hget. simpl.
  unfold except_ClientError.
  destruct (is_ClientError e) eqn:Hce; simpl in *.
  - rewrite Hcode. simpl. unfold except_ClientError. by rewrite Hce.
  - simpl. unfold except_ClientError. by rewrite Hce.
Qed.

Lemma tag_s3_bucket_read_fails_witness :
  run Sim.aws (tag_s3_bucket (JStr "other-bucket") alice_tags (JStr "us-east-1"))
    bucket_account
  = Outcome (inl (Sim.not_found "GetBucketTagging" "other-bucket")) bucket_account
      [s3_get_bucket_tagging (JStr "us-east-1") (JStr "other-bucket")].
Proof.
  apply (tag_s3_bucket_read_fails Sim.aws (JStr "other-bucket") alice_tags
           (JStr "us-east-1") bucket_account bucket_account
           (Sim.not_found "GetBucketTagging" "other-bucket")).
  - vm_compute. reflexivity.
  - reflexivity.
Defined.

(** X13. [tag_dynamodb_table] tags the table under the ARN that
    [describe_table] answers, and tags nothing when [describe_table]
    raises: it makes the two calls in that order and returns or raises what
    the tagging call does, or makes the first call alone and raises what it
    raised. *)
Theorem tag_dynamodb_table_calls {W : Type} (aws : services W) (table_name : json)
    (tags : dict) (region : json) (w : W) :
  let describe := dynamodb_describe_table region table_name in
  run aws (tag_dynamodb_table table_name tags region) w
  = match aws describe w with
    | (inl e, w1) => Outcome (inl e) w1 [describe]
    | (inr TableArn, w1) =>
        let tagging := dynamodb_tag_resource region (JStr TableArn) (tag_list tags) in
        Outcome (aws tagging w1).1 (aws tagging w1).2 [describe; tagging]
    end.
Proof.
  simpl. unfold tag_dynamodb_table. unfold_prog. simpl.
  destruct (aws (dynamodb_describe_table region table_name) w) as [[e|TableArn] w1]; simpl.
  { unfold except_ClientError. by destruct (is_ClientError e). }
  destruct (aws (dynamodb_tag_resource region (JStr TableArn) (tag_list tags)) w1)
    as [[e|[]] w2]; simpl; [|reflexivity].
  unfold except_ClientError. by destruct (is_ClientError e).
Qed.

(** X14. [tag_lambda_function] looks up no function whose name starts with
    [arn:]: it makes the tagging call alone, on the name as it is given, and
    returns or raises what that call does. *)
Theorem tag_lambda_function_arn {W : Type} (aws : services W) (name : string)
    (tags : dict) (region : json) (w : W) :
  startswith name "arn:" = true ->
  let tagging := lambda_tag_resource region (JStr name) tags in
  run aws (tag_lambda_function (JStr name) tags region) w
  = Outcome (aws tagging w).1 (aws tagging w).2 [tagging].
Proof.
  intros Harn. simpl. unfold tag_lambda_function. unfold_prog. simpl.
  rewrite Harn. simpl.
  destruct (aws (lambda_tag_resource region (JStr name) tags) w) as [[e|[]] w1]; simpl;
    [|reflexivity].
  unfold except_ClientError. by destruct (is_ClientError e).
Qed.

Lemma tag_lambda_function_arn_witness :
  calls (run Sim.aws (tag_lambda_function (JStr resize_arn) alice_tags (JStr "us-east-1"))
           (function_account "GetFunction:resize"))
  = [lambda_tag_resource (JStr "us-east-1") (JStr resize_arn) alice_tags].
Proof.
  rewrite (tag_lambda_function_arn Sim.aws resize_arn alice_tags (JStr "us-east-1")
             (function_account "GetFunction:resize") eq_refl).
  reflexivity.
Defined.

(** ** The calls of a dispatch *)

Lemma all_calls_run {A W : Type} (P : api_call -> Prop) (p : prog A)
    (aws : services W) (w : W) :
  all_calls P p -> Forall P (calls (run aws p w)).
Proof.
  intros Hp. revert w. induction Hp as [a|e|c k Hc _ IH]; intros w; simpl.
  - constructor.
  - constructor.
  - constructor; [exact Hc|apply IH].
Qed.

Lemma all_calls_bind {A B : Type} (P : api_call -> Prop) (p : prog A) (f : A -> prog B) :
  all_calls P p -> (forall a, all_calls P (f a)) -> all_calls P (bind p f).
Proof.
  intros Hp Hf. induction Hp as [a|e|c k Hc _ IH]; simpl.
  - apply Hf.
  - constructor.
  - constructor; [exact Hc|exact IH].
Qed.

Lemma all_calls_try_except {A : Type} (P : api_call -> Prop) (p : prog A)
    (except : exn -> option (prog A)) :
  all_calls P p ->
  (forall e h, except e = Some h -> all_calls P h) ->
  all_calls P (try_except p except).
Proof.
  intros Hp Hh. induction Hp as [a|e|c k Hc _ IH]; simpl.
  - constructor.
  - destruct (except e) as [h|] eqn:E; [by apply (Hh e)|constructor].
  - constructor; [exact Hc|exact IH].
Qed.

(** A call and what follows it inside [try: ... except ClientError: raise]. *)
Lemma all_calls_reraise {A : Type} (P : api_call -> Prop) (p : prog A) :
  all_calls P p -> all_calls P (try_except p (except_ClientError (fun e => Raise e))).
Proof.
  intros Hp. apply all_calls_try_except; [exact Hp|].
  intros e h. unfold except_ClientError. destruct (is_ClientError e); [|discriminate].
  intros [= <-]. constructor.
Qed.

Lemma all_calls_call (P : api_call -> Prop) (c : api_call) :
  P c -> all_calls P (call c).
Proof. intros Hc. constructor; [exact Hc|]. intros [e|x]; constructor. Qed.

Ltac one_call :=
  match goal with
  | |- all_calls ?P (call ?c) => apply (all_calls_call P c)
  end.

Lemma tag_list_holds (tags : dict) (k : string) (v : json) :
  tags !! k = Some v -> (k, v) ∈ tag_list tags.
Proof. intros H. by apply elem_of_map_to_list. Qed.

Lemma update_empty (tags : dict) : update ∅ tags = tags.
Proof. unfold update. by rewrite (right_id_L ∅ (∪)). Qed.

(** Tags laid over others are all among the tags written. *)
Lemma update_holds (existing_tags tags : dict) (k : string) (v : json) :
  tags !! k = Some v -> (k, v) ∈ tag_list (update existing_tags tags).
Proof. intros H. apply tag_list_holds. unfold update. by apply lookup_union_Some_l. Qed.

Section SentFor.

Context (event_source : json) (all_tags : dict) (aws_region : json).

Lemma tag_ec2_resource_calls (resource_id : json) (resource_type : string) :
  event_source = JStr "ec2.amazonaws.com" ->
  all_calls (sent_for event_source all_tags)
    (tag_ec2_resource resource_id resource_type all_tags aws_region).
Proof.
  intros ->. apply all_calls_reraise. one_call.
  split; [reflexivity|]. intros ts [= <-]. exists ∅.
  split; [by rewrite update_empty|done].
Qed.

Lemma tag_rds_resource_calls (resource_arn : json) :
  event_source = JStr "rds.amazonaws.com" ->
  all_calls (sent_for event_source all_tags)
    (tag_rds_resource resource_arn all_tags aws_region).
Proof.
  intros ->. apply all_calls_reraise. one_call.
  split; [reflexivity|]. intros ts [= <-]. exists ∅.
  split; [by rewrite update_empty|done].
Qed.

Lemma tag_s3_bucket_calls (bucket_name : json) :
  event_source = JStr "s3.amazonaws.com" ->
  all_calls (sent_for event_source all_tags)
    (tag_s3_bucket bucket_name all_tags aws_region).
Proof.
  intros ->. apply all_calls_reraise. unfold_prog. apply all_calls_bind.
  - apply all_calls_try_except.
    + apply all_calls_bind; [|intros; constructor].
      one_call. split; [reflexivity|]. discriminate.
    + intros e h. unfold except_ClientError. destruct (is_ClientError e); [|discriminate].
      intros [= <-]. destruct (String.eqb _ _); constructor.
  - intros existing_tags. one_call.
    split; [reflexivity|]. intros ts [= <-]. exists existing_tags.
    split; [reflexivity|]. intros Hs3. by destruct Hs3.
Qed.

Lemma tag_lambda_function_calls (function_name : json) :
  event_source = JStr "lambda.amazonaws.com" ->
  all_calls (sent_for event_source all_tags)
    (tag_lambda_function function_name all_tags aws_region).
Proof.
  intros ->. apply all_calls_reraise. unfold_prog. apply all_calls_bind.
  - destruct function_name; constructor.
  - intros is_arn. apply all_calls_bind.
    + destruct is_arn; simpl; [constructor|].
      constructor; [|intros [e|x]; constructor].
      split; [reflexivity|]. discriminate.
    + intros function_arn. one_call.
      split; [reflexivity|]. intros ts [= <-]. exists ∅.
      split; [by rewrite update_empty|done].
Qed.

Lemma tag_dynamodb_table_calls_sent (table_name : json) :
  event_source = JStr "dynamodb.amazonaws.com" ->
  all_calls (sent_for event_source all_tags)
    (tag_dynamodb_table table_name all_tags aws_region).
Proof.
  intros ->. apply all_calls_reraise. unfold_prog. apply all_calls_bind.
  - one_call. split; [reflexivity|]. discriminate.
  - intros TableArn. one_call.
    split; [reflexivity|]. intros ts [= <-]. exists ∅.
    split; [by rewrite update_empty|done].
Qed.

Lemma for_instance_calls (instances : list json) (acc : list fstring) :
  event_source = JStr "ec2.amazonaws.com" ->
  all_calls (sent_for event_source all_tags)
    (for_instance instances all_tags aws_region acc).
Proof.
  intros Hs. revert acc. induction instances as [|instance instances IH]; intros acc.
  - constructor.
  - cbn [for_instance]. unfold_prog. apply all_calls_bind.
    + destruct instance; constructor.
    + intros instance_id. destruct (truthy instance_id); [|apply IH].
      apply all_calls_bind; [by apply tag_ec2_resource_calls|]. intros _. apply IH.
Qed.

End SentFor.

Ltac source_eq :=
  match goal with
  | H : eq_str ?s ?x = true |- ?s = JStr ?x => by apply eq_str_true
  | H : eq_str ?s ?x && _ = true |- ?s = JStr ?x =>
      apply andb_true_iff in H as [H _]; by apply eq_str_true
  end.

Ltac calls_step :=
  first
    [ apply all_calls_Ret
    | apply all_calls_Raise
    | match goal with
      | |- all_calls _ (get ?v _ _) => destruct v; constructor
      | |- all_calls _ (iter ?v) => destruct v; constructor
      | |- all_calls (sent_for ?s _) (tag_ec2_resource _ _ _ _) =>
          apply tag_ec2_resource_calls; source_eq
      | |- all_calls (sent_for ?s _) (for_instance _ _ _ _) =>
          apply for_instance_calls; source_eq
      | |- all_calls (sent_for ?s _) (tag_s3_bucket _ _ _) =>
          apply tag_s3_bucket_calls; source_eq
      | |- all_calls (sent_for ?s _) (tag_rds_resource _ _ _) =>
          apply tag_rds_resource_calls; source_eq
      | |- all_calls (sent_for ?s _) (tag_lambda_function _ _ _) =>
          apply tag_lambda_function_calls; source_eq
      | |- all_calls (sent_for ?s _) (tag_dynamodb_table _ _ _) =>
          apply tag_dynamodb_table_calls_sent; source_eq
      | |- all_calls _ (if ?b then _ else _) => destruct b eqn:?
      | |- all_calls _ (bind _ _) => apply all_calls_bind; [|intros ?]
      end ].

(** Every call of the chain is made for the event. *)
Lemma tag_created_calls (detail event_name event_source : json) (all_tags : dict)
    (aws_region : json) :
  all_calls (sent_for event_source all_tags)
    (tag_created detail event_name event_source all_tags aws_region).
Proof.
  unfold tag_created, in_strings. unfold_prog. cbn [existsb].
  repeat match goal with
    | |- all_calls _ (if eq_str ?v ?s && ?b then _ else _) =>
        destruct (eq_str v s) eqn:?; cbn [andb]
    end.
  all: repeat calls_step.
Qed.

(** Every call of a [process_event] is made for its event. *)
Lemma process_event_calls {W : Type} (aws : services W) (w : W) (cfg : config)
    (environ : gmap string string) (now : string) (event : json) (c : api_call) :
  c ∈ calls (run aws (process_event cfg environ now event) w) ->
  exists (m d user_tags : dict),
    event = JObj m
    /\ default (JObj ∅) (m !! "detail") = JObj d
    /\ get_user_identity now event = Ret user_tags
    /\ sent_for (default (JStr "") (d !! "eventSource")) (user_tags ∪ default_tags cfg) c.
Proof.
  assert (forall (d : dict) (event_source : json),
    c ∈ calls (run aws (dispatch cfg environ now event d event_source) w) ->
    exists user_tags : dict,
      get_user_identity now event = Ret user_tags
      /\ sent_for event_source (user_tags ∪ default_tags cfg) c) as Hdispatch.
  { intros d event_source.
    destruct (get_user_identity_cases now event) as [[e He]|(user_tags & Hu & _)].
    { unfold dispatch. rewrite He. simpl. intros H. by apply elem_of_nil in H. }
    rewrite (dispatch_identity cfg environ now event d event_source user_tags Hu).
    intros Hc. exists user_tags. split; [exact Hu|].
    eapply Forall_forall; [|exact Hc]. apply all_calls_run.
    apply all_calls_try_except.
    - apply all_calls_bind; [apply tag_created_calls|]. intros l. constructor.
    - intros e h [= <-]. constructor. }
  unfold process_event. unfold_prog.
  destruct event as [| | | | |m]; simpl; try (intros H; by apply elem_of_nil in H).
  destruct (default (JObj ∅) (m !! "detail")) as [| | | | |d] eqn:Hd; simpl;
    try (intros H; by apply elem_of_nil in H).
  fold (dispatch cfg environ now (JObj m) d (default (JStr "") (d !! "eventSource"))).
  intros Hc. exists m, d.
  destruct (default (JStr "") (d !! "eventSource")) as [| | |s|l|o] eqn:Hs; simpl in Hc;
    try (by apply elem_of_nil in Hc).
  - destruct (contains "." s); simpl in Hc;
      (destruct (in_strings _ (excluded_services cfg)); simpl in Hc;
       [by apply elem_of_nil in Hc|]);
      destruct (Hdispatch d (JStr s) Hc) as (user_tags & Hu & Hsent); by exists user_tags.
  - destruct (existsb _ l); simpl in Hc; [by apply elem_of_nil in Hc|].
    rewrite in_strings_not_str in Hc by discriminate.
    destruct (Hdispatch d (JList l) Hc) as (user_tags & Hu & Hsent); by exists user_tags.
  - destruct (o !! "."); simpl in Hc; [by apply elem_of_nil in Hc|].
    rewrite in_strings_not_str in Hc by discriminate.
    destruct (Hdispatch d (JObj o) Hc) as (user_tags & Hu & Hsent); by exists user_tags.
Qed.

(** X15. A dispatch calls no service but the one that sent the event:
    every call [process_event] makes is a call of the service whose name,
    followed by [.amazonaws.com], is the [eventSource] of the event. *)
Theorem calls_stay_with_event {W : Type} (aws : services W) (w : W) (cfg : config)
    (environ : gmap string string) (now : string) (event : json) (c : api_call) :
  c ∈ calls (run aws (process_event cfg environ now event) w) ->
  exists m d : dict,
    event = JObj m
    /\ default (JObj ∅) (m !! "detail") = JObj d
    /\ d !! "eventSource" = Some (JStr (call_service c +:+ ".amazonaws.com")).
Proof.
  intros Hc.
  destruct (process_event_calls aws w cfg environ now event c Hc)
    as (m & d & user_tags & -> & Hd & _ & Hsource & _).
  exists m, d. split; [reflexivity|]. split; [exact Hd|].
  destruct (d !! "eventSource") as [es|]; simpl in Hsource; [by rewrite Hsource|].
  by destruct c.
Qed.

Lemma calls_stay_with_event_witness :
  exists m d : dict,
    JObj three_launch_event = JObj m
    /\ default (JObj ∅) (m !! "detail") = JObj d
    /\ d !! "eventSource" = Some (JStr "ec2.amazonaws.com").
Proof.
  apply (calls_stay_with_event Sim.aws three_account (CONFIG ∅) ∅ "2024-12-25T10:30:05"
           (JObj three_launch_event) (create_tags (JStr "us-east-1") alice_tags (JStr "i-2"))).
  vm_compute. apply list_elem_of_further, list_elem_of_here.
Defined.

(** X16. Every call of a dispatch that writes tags writes all the tags the
    dispatch computed: each tag of the identity laid over the defaults is
    among the tags of the call, and so the five keys of the identity are, with
    the values [get_user_identity] gave them. *)
Theorem written_tags_complete {W : Type} (aws : services W) (w : W) (cfg : config)
    (environ : gmap string string) (now : string) (event : json) (c : api_call)
    (ts : list (string * json)) :
  c ∈ calls (run aws (process_event cfg environ now event) w) ->
  call_tags c = Some ts ->
  exists user_tags : dict,
    get_user_identity now event = Ret user_tags
    /\ (forall k v, (user_tags ∪ default_tags cfg) !! k = Some v -> (k, v) ∈ ts)
    /\ Forall (fun k => exists v, user_tags !! k = Some v /\ (k, v) ∈ ts) identity_keys.
Proof.
  intros Hc Hts.
  destruct (process_event_calls aws w cfg environ now event c Hc)
    as (m & d & user_tags & -> & Hd & Hu & _ & Htags).
  destruct (Htags ts Hts) as (existing_tags & -> & _).
  exists user_tags. split; [exact Hu|]. split; [intros k v; apply update_holds|].
  destruct (get_user_identity_cases now (JObj m)) as [[e He]|(t & Ht & Hkeys)]; [congruence|].
  assert (t = user_tags) as -> by congruence.
  eapply Forall_impl; [exact Hkeys|]. intros k [v Hk]. simpl. exists v.
  split; [exact Hk|]. apply update_holds. by apply lookup_union_Some_l.
Qed.

Lemma written_tags_complete_witness :
  exists user_tags : dict,
    get_user_identity "2024-12-25T10:30:05" (JObj three_launch_event) = Ret user_tags
    /\ (forall k v, (user_tags ∪ default_tags (CONFIG ∅)) !! k = Some v ->
        (k, v) ∈ tag_list alice_tags)
    /\ Forall (fun k => exists v, user_tags !! k = Some v /\ (k, v) ∈ tag_list alice_tags)
         identity_keys.
Proof.
  apply (written_tags_complete Sim.aws three_account (CONFIG ∅) ∅ "2024-12-25T10:30:05"
           (JObj three_launch_event) (create_tags (JStr "us-east-1") alice_tags (JStr "i-1"))).
  - vm_compute. apply list_elem_of_here.
  - reflexivity.
Defined.

(** ** A launch that is tagged *)

Lemma run_for_instance_all {W : Type} (aws : services W) (region : json) (tags : dict)
    (instances ids : list json) (acc : list fstring) (w w1 : W) :
  instance_ids instances = Some ids ->
  tagged_all aws region tags ids w = Some w1 ->
  run aws (for_instance instances tags region acc) w
  = Outcome (inr (acc ++ map (FStr "ec2:instance:") ids)) w1
      (map (create_tags region tags) ids).
Proof.
  revert ids acc w. induction instances as [|instance instances IH]; intros ids acc w; simpl.
  - intros [= <-] [= ->]. by rewrite app_nil_r.
  - destruct instance as [| | | | |o]; try discriminate.
    destruct (instance_ids instances) as [ids'|]; simpl; [|discriminate].
    unfold_prog. simpl.
    destruct (truthy (default JNull (o !! "instanceId"))) eqn:Htruthy; intros [= <-].
    + simpl.
      change (ec2_create_tags region [default JNull (o !! "instanceId")] (tag_list tags))
        with (create_tags region tags (default JNull (o !! "instanceId"))).
      destruct (aws (create_tags region tags _) w) as [[e|[]] w']; [discriminate|].
      simpl. intros Htag. rewrite (IH ids' _ w' eq_refl Htag). simpl.
      by rewrite <- app_assoc.
    + intros Htag. by rewrite (IH ids' acc w eq_refl Htag).
Qed.

(** X17. A launch whose instances the services all tag: [process_event]
    makes one tagging call for each instance that has an id, in the order of
    the event, passes over the items without one, and returns status
    [success] with the instances in that order. *)
Theorem launch_tagged {W : Type} (aws : services W) (w w1 : W) (cfg : config)
    (environ : gmap string string) (now : string) (m d re iset : dict)
    (instances ids : list json) (user_tags : dict) :
  m !! "detail" = Some (JObj d) ->
  d !! "eventSource" = Some (JStr "ec2.amazonaws.com") ->
  d !! "eventName" = Some (JStr "RunInstances") ->
  d !! "responseElements" = Some (JObj re) ->
  re !! "instancesSet" = Some (JObj iset) ->
  iset !! "items" = Some (JList instances) ->
  "ec2" ∉ excluded_services cfg ->
  get_user_identity now (JObj m) = Ret user_tags ->
  instance_ids instances = Some ids ->
  let all_tags : dict := user_tags ∪ default_tags cfg in
  let aws_region : json :=
    default (JStr (default "us-east-1" (environ !! "AWS_REGION"))) (d !! "awsRegion") in
  tagged_all aws aws_region all_tags ids w = Some w1 ->
  run aws (process_event cfg environ now (JObj m)) w
  = Outcome (inr (success (map (FStr "ec2:instance:") ids) all_tags
                    (JStr "RunInstances") (JStr "ec2.amazonaws.com")))
      w1 (map (create_tags aws_region all_tags) ids).
Proof.
  intros Hd Hs Hn Hre Hset Hitems Hex Hid Hids all_tags aws_region Htag.
  rewrite (process_event_head cfg environ now m d "ec2.amazonaws.com")
    by (by rewrite ?Hd, ?Hs).
  change (service_token "ec2.amazonaws.com") with "ec2".
  rewrite (not_in_strings _ _ Hex).
  rewrite (dispatch_identity cfg environ now (JObj m) d _ user_tags Hid).
  rewrite Hn. simpl (default (JStr "") (Some _)).
  fold all_tags. fold aws_region.
  rewrite run_try_except, run_bind.
  assert (run aws (tag_created (JObj d) (JStr "RunInstances") (JStr "ec2.amazonaws.com")
                     all_tags aws_region) w
          = Outcome (inr (map (FStr "ec2:instance:") ids)) w1
              (map (create_tags aws_region all_tags) ids)) as ->.
  { unfold tag_created. unfold_prog. simpl. rewrite Hre. simpl.
    pose proof (truthy_dict re _ _ Hset) as Htruthy. simpl in Htruthy. rewrite Htruthy.
    rewrite Hset. simpl. rewrite Hitems. simpl.
    exact (run_for_instance_all aws aws_region all_tags instances ids [] w w1 Hids Htag). }
  simpl. by rewrite app_nil_r.
Qed.

Lemma launch_tagged_witness :
  run Sim.aws (process_event (CONFIG ∅) ∅ "2024-12-25T10:30:05" (JObj launch_event))
    launch_account
  = Outcome (inr (success [FStr "ec2:instance:" (JStr "i-100")] alice_tags
                    (JStr "RunInstances") (JStr "ec2.amazonaws.com")))
      (Sim.Cloud {[ "i-100" := alice_string_tags ]} ∅ ∅)
      [create_tags (JStr "us-east-1") alice_tags (JStr "i-100")].
Proof.
  assert (get_user_identity "2024-12-25T10:30:05" (JObj launch_event) = Ret alice_identity)
    as Hidentity by (vm_compute; reflexivity).
  refine (launch_tagged Sim.aws launch_account (Sim.Cloud {[ "i-100" := alice_string_tags ]} ∅ ∅)
    (CONFIG ∅) ∅ "2024-12-25T10:30:05" launch_event
    {[ "eventSource" := JStr "ec2.amazonaws.com";
       "eventName" := JStr "RunInstances";
       "awsRegion" := JStr "us-east-1";
       "eventTime" := JStr "2024-12-25T10:30:00Z";
       "userIdentity" := alice;
       "responseElements" := JObj {[ "instancesSet" := JObj {[
          "items" := JList [JObj {[ "instanceId" := JStr "i-100" ]}] ]} ]} ]}
    {[ "instancesSet" := JObj {[
          "items" := JList [JObj {[ "instanceId" := JStr "i-100" ]}] ]} ]}
    {[ "items" := JList [JObj {[ "instanceId" := JStr "i-100" ]}] ]}
    [JObj {[ "instanceId" := JStr "i-100" ]}] [JStr "i-100"] alice_identity
    eq_refl eq_refl eq_refl eq_refl eq_refl eq_refl _ Hidentity eq_refl _).
  - vm_compute. intros H. do 2 (apply elem_of_cons in H as [H|H]; [discriminate|]).
    by apply elem_of_nil in H.
  - vm_compute. reflexivity.
Defined.

(** * The dispatch by its branches and by its calls *)

(** ** C2: events without a route or without a resource *)

(** A routed event is a launch or the event of a branch of the table. *)
Lemma routed_cases (s : string) (event_name : json) :
  routed (JStr s) event_name = true ->
  (s = "ec2.amazonaws.com" /\ event_name = JStr "RunInstances")
  \/ (exists rt : route,
        rt ∈ routes /\ s = route_source rt /\ event_name = JStr (route_name rt)).
Proof.
  unfold routed, routing_table. cbn [existsb fst snd].
  rewrite !orb_true_iff, !andb_true_iff, !eq_str_true.
  assert (forall i (rt : route), routes !! i = Some rt ->
          JStr s = JStr (route_source rt) -> event_name = JStr (route_name rt) ->
          exists rt : route,
            rt ∈ routes /\ s = route_source rt /\ event_name = JStr (route_name rt)) as Hrt.
  { intros i rt Hi [= ->] ->. exists rt. split; [|done]. by eapply list_elem_of_lookup_2. }
  intros [[[= ->] ->]|[[Hs Hn]|[[Hs Hn]|[[Hs Hn]|[[Hs Hn]|[[Hs Hn]|[[Hs Hn]|[[Hs Hn]|[[Hs Hn]|
    [[Hs Hn]|[=]]]]]]]]]]]; [by left|right..].
  - exact (Hrt 0%nat _ eq_refl Hs Hn).
  - exact (Hrt 1%nat _ eq_refl Hs Hn).
  - exact (Hrt 2%nat _ eq_refl Hs Hn).
  - exact (Hrt 3%nat _ eq_refl Hs Hn).
  - exact (Hrt 4%nat _ eq_refl Hs Hn).
  - exact (Hrt 5%nat _ eq_refl Hs Hn).
  - exact (Hrt 6%nat _ eq_refl Hs Hn).
  - exact (Hrt 7%nat _ eq_refl Hs Hn).
  - exact (Hrt 8%nat _ eq_refl Hs Hn).
Qed.

(** The loop over instances none of which has an id. *)
Lemma for_instance_no_ids (instances : list json) (all_tags : dict) (aws_region : json)
    (acc : list fstring) :
  instance_ids instances = Some [] ->
  for_instance instances all_tags aws_region acc = Ret acc.
Proof.
  induction instances as [|instance instances IH]; simpl; [reflexivity|].
  destruct instance as [| | | | |o]; try discriminate.
  destruct (instance_ids instances) as [ids|]; simpl; [|discriminate].
  unfold_prog. simpl.
  destruct (truthy (default JNull (o !! "instanceId"))); [discriminate|].
  intros [= ->]. by apply IH.
Qed.

(** The chain on a launch that has no instance to tag. *)
Lemma tag_created_launch_none (d : dict) (all_tags : dict) (aws_region : json) :
  launch_ids d = Some [] ->
  tag_created (JObj d) (JStr "RunInstances") (JStr "ec2.amazonaws.com") all_tags aws_region
  = Ret [].
Proof.
  unfold launch_ids, tag_created. unfold_prog. simpl.
  destruct (default (JObj ∅) (d !! "responseElements")) as [| |z|x|l|re] eqn:Hre; simpl.
  - reflexivity.
  - by destruct b.
  - by destruct (negb _).
  - by destruct (negb _).
  - by destruct l.
  - destruct (map_to_list re); [reflexivity|].
    destruct (default (JObj ∅) (re !! "instancesSet")) as [| | | | |iset]; try discriminate.
    simpl.
    destruct (default (JList []) (iset !! "items")) as [| | | |instances|]; try discriminate.
    simpl. apply for_instance_no_ids.
Qed.

(** C2, as the code has it. For every event whose service is not excluded
    and whose identity is extracted, [process_event] is a program that makes
    no call and returns status [success] with no tagged resource in each of
    these cases: the pair of event source and event name has no branch; the
    event is the one of a branch that tags one resource, and the id the
    branch reads is missing or falsy; the event is a launch whose response is
    absent or falsy, or whose items carry no instance id. A routed event is
    of one of the last two kinds. *)
Theorem no_match_is_success (cfg : config) (environ : gmap string string)
    (now : string) (m d : dict) (s : string) (user_tags : dict) :
  default (JObj ∅) (m !! "detail") = JObj d ->
  default (JStr "") (d !! "eventSource") = JStr s ->
  service_token s ∉ excluded_services cfg ->
  get_user_identity now (JObj m) = Ret user_tags ->
  let event_name := default (JStr "") (d !! "eventName") in
  let r := success [] (user_tags ∪ default_tags cfg) event_name (JStr s) in
  status r = "success"
  /\ (routed (JStr s) event_name = false ->
      process_event cfg environ now (JObj m) = Ret r)
  /\ (forall (rt : route) (resource_id : json),
        rt ∈ routes -> s = route_source rt -> event_name = JStr (route_name rt) ->
        value_at (default (JObj ∅) (d !! route_member rt)) (route_path rt)
          = Some resource_id ->
        truthy resource_id = false ->
        process_event cfg environ now (JObj m) = Ret r)
  /\ (s = "ec2.amazonaws.com" -> event_name = JStr "RunInstances" ->
      launch_ids d = Some [] ->
      process_event cfg environ now (JObj m) = Ret r)
  /\ (routed (JStr s) event_name = true ->
      (s = "ec2.amazonaws.com" /\ event_name = JStr "RunInstances")
      \/ (exists rt : route,
            rt ∈ routes /\ s = route_source rt /\ event_name = JStr (route_name rt))).
Proof.
  intros Hd Hs Hex Hid event_name r.
  rewrite (process_event_head cfg environ now m d s Hd Hs).
  rewrite (not_in_strings _ _ Hex).
  rewrite (dispatch_identity cfg environ now (JObj m) d (JStr s) user_tags Hid).
  fold event_name.
  split; [reflexivity|]. split; [|split; [|split]].
  - intros Hr. by rewrite (tag_created_unrouted _ _ _ _ _ Hr).
  - intros rt resource_id Hrt -> Hn Hvalue Hfalsy. subst r. rewrite Hn.
    rewrite (tag_created_route rt d resource_id _ _ Hrt Hvalue), Hfalsy. reflexivity.
  - intros -> Hn Hids. subst r. rewrite Hn.
    by rewrite (tag_created_launch_none d _ _ Hids).
  - apply routed_cases.
Qed.

Lemma no_match_is_success_witness :
  process_event (CONFIG ∅) ∅ "2024-12-25T10:30:05" (JObj create_topic_event)
  = Ret (success [] alice_tags (JStr "CreateTopic") (JStr "sns.amazonaws.com"))
  /\ process_event (CONFIG ∅) ∅ "2024-12-25T10:30:05" (JObj (volume_event (JObj ∅)))
     = Ret (success [] alice_tags (JStr "CreateVolume") (JStr "ec2.amazonaws.com"))
  /\ process_event (CONFIG ∅) ∅ "2024-12-25T10:30:05" (JObj failed_launch_event)
     = Ret (success [] alice_tags (JStr "RunInstances") (JStr "ec2.amazonaws.com")).
Proof.
  assert (forall s : string,
    contains "." s = true -> before_first "." s <> "cloudtrail" ->
    before_first "." s <> "logs" ->
    service_token s ∉ excluded_services (CONFIG ∅)) as Hservice.
  { intros s _ H1 H2 H. change (excluded_services (CONFIG ∅)) with ["cloudtrail"; "logs"] in H.
    apply elem_of_cons in H as [H|H]; [by apply H1|].
    apply elem_of_cons in H as [H|H]; [by apply H2|]. by apply elem_of_nil in H. }
  split; [|split].
  - refine (proj1 (proj2 (no_match_is_success (CONFIG ∅) ∅ "2024-12-25T10:30:05"
      create_topic_event
      {[ "eventSource" := JStr "sns.amazonaws.com";
         "eventName" := JStr "CreateTopic";
         "awsRegion" := JStr "us-east-1";
         "eventTime" := JStr "2024-12-25T10:30:00Z";
         "userIdentity" := alice ]}
      "sns.amazonaws.com" alice_identity eq_refl eq_refl _ _)) eq_refl).
    + by apply Hservice.
    + vm_compute. reflexivity.
  - refine (proj1 (proj2 (proj2 (no_match_is_success (CONFIG ∅) ∅ "2024-12-25T10:30:05"
      (volume_event (JObj ∅)) (volume_detail (JObj ∅)) "ec2.amazonaws.com" alice_identity
      eq_refl eq_refl _ _))) volume_route JNull _ eq_refl eq_refl _ eq_refl).
    + by apply Hservice.
    + vm_compute. reflexivity.
    + apply list_elem_of_here.
    + vm_compute. reflexivity.
  - refine (proj1 (proj2 (proj2 (proj2 (no_match_is_success (CONFIG ∅) ∅
      "2024-12-25T10:30:05" failed_launch_event
      {[ "eventSource" := JStr "ec2.amazonaws.com";
         "eventName" := JStr "RunInstances";
         "awsRegion" := JStr "us-east-1";
         "eventTime" := JStr "2024-12-25T10:30:00Z";
         "userIdentity" := alice;
         "responseElements" := JNull ]}
      "ec2.amazonaws.com" alice_identity eq_refl eq_refl _ _)))) eq_refl eq_refl eq_refl).
    + by apply Hservice.
    + vm_compute. reflexivity.
Defined.

(** ** C7: the tag set *)

(** C7. For every event and whatever the services answer, the tag set of a
    dispatch is the identity tags laid over the default tags of the
    configuration. Every call that writes tags, be the dispatch to end in
    [success] or in [error], writes exactly that set, the call on a bucket
    laying it over the tags it read: a key of the identity is written with
    the identity's value, whatever the defaults hold for it, and the five keys
    of the identity (creator ARN, display name, principal type, account id,
    creation timestamp) are always written. The tags a successful
    [process_event] reports as applied are that same set. *)
Theorem tags_overlay_defaults {W : Type} (aws : services W) (w : W) (cfg : config)
    (environ : gmap string string) (now : string) (event : json) :
  let o := run aws (process_event cfg environ now event) w in
  (forall (c : api_call) (ts : list (string * json)),
     c ∈ calls o -> call_tags c = Some ts ->
     exists user_tags existing_tags : dict,
       get_user_identity now event = Ret user_tags
       /\ ts = tag_list (update existing_tags (user_tags ∪ default_tags cfg))
       /\ (call_service c <> "s3" -> existing_tags = ∅)
       /\ (forall k v, user_tags !! k = Some v -> (k, v) ∈ ts)
       /\ (forall k v, user_tags !! k = None -> default_tags cfg !! k = Some v -> (k, v) ∈ ts)
       /\ Forall (fun k => exists v, user_tags !! k = Some v /\ (k, v) ∈ ts) identity_keys)
  /\ (forall (l : list fstring) (tags : dict) (en es : json),
        returned o = inr (success l tags en es) ->
        exists user_tags : dict,
          get_user_identity now event = Ret user_tags
          /\ tags = user_tags ∪ default_tags cfg
          /\ (forall k v, user_tags !! k = Some v -> tags !! k = Some v)
          /\ (forall k, user_tags !! k = None -> tags !! k = default_tags cfg !! k)
          /\ Forall (fun k => is_Some (tags !! k) /\ tags !! k = user_tags !! k)
               identity_keys).
Proof.
  simpl. split.
  - intros c ts Hc Hts.
    destruct (process_event_calls aws w cfg environ now event c Hc)
      as (m & d & user_tags & -> & Hd & Hu & _ & Htags).
    destruct (Htags ts Hts) as (existing_tags & -> & Hexisting).
    exists user_tags, existing_tags.
    split; [exact Hu|]. split; [reflexivity|]. split; [exact Hexisting|].
    split; [|split].
    + intros k v Hk. apply update_holds. by apply lookup_union_Some_l.
    + intros k v Hk Hdefault. apply update_holds. by rewrite lookup_union_r.
    + destruct (get_user_identity_cases now (JObj m)) as [[e He]|(t & Ht & Hkeys)];
        [congruence|].
      assert (t = user_tags) as -> by congruence.
      eapply Forall_impl; [exact Hkeys|]. intros k [v Hk]. simpl. exists v.
      split; [exact Hk|]. apply update_holds. by apply lookup_union_Some_l.
  - intros l tags en es Hrun.
    destruct (success_reports_overlay aws w cfg environ now event l tags en es Hrun)
      as (user_tags & Hu & ->).
    exists user_tags. split; [exact Hu|]. split; [reflexivity|].
    split; [|split].
    + intros k v Hk. by apply lookup_union_Some_l.
    + intros k Hk. by apply lookup_union_r.
    + destruct (get_user_identity_cases now event) as [[e He']|(t & Ht & Hkeys)];
        [congruence|].
      assert (t = user_tags) as -> by congruence.
      eapply Forall_impl; [exact Hkeys|]. intros k [v Hk]. simpl.
      rewrite (lookup_union_Some_l _ _ _ _ Hk). split; [by eexists|by rewrite Hk].
Qed.

Lemma tags_overlay_defaults_witness :
  (exists user_tags existing_tags : dict,
     get_user_identity "2024-12-25T10:30:05" (JObj three_launch_event) = Ret user_tags
     /\ tag_list alice_tags
        = tag_list (update existing_tags (user_tags ∪ default_tags (CONFIG ∅)))
     /\ existing_tags = ∅)
  /\ exists user_tags : dict,
       get_user_identity "2024-12-25T10:30:05" (JObj launch_event) = Ret user_tags
       /\ alice_tags = user_tags ∪ default_tags (CONFIG ∅).
Proof.
  split.
  - destruct (proj1 (tags_overlay_defaults Sim.aws three_account (CONFIG ∅) ∅
        "2024-12-25T10:30:05" (JObj three_launch_event))
      (create_tags (JStr "us-east-1") alice_tags (JStr "i-1")) (tag_list alice_tags))
      as (user_tags & existing_tags & Hu & Hts & Hexisting & _).
    + vm_compute. apply list_elem_of_here.
    + reflexivity.
    + exists user_tags, existing_tags. split; [exact Hu|]. split; [exact Hts|].
      apply Hexisting. discriminate.
  - destruct (proj2 (tags_overlay_defaults Sim.aws launch_account (CONFIG ∅) ∅
        "2024-12-25T10:30:05" (JObj launch_event))
      [FStr "ec2:instance:" (JStr "i-100")] alice_tags
      (JStr "RunInstances") (JStr "ec2.amazonaws.com"))
      as (user_tags & Hu & Ht & _).
    + vm_compute. reflexivity.
    + exists user_tags. split; assumption.
Defined.
